(** * tradeinternal-mcp: query construction and response normalisation

    A shallow embedding of [tradeinternal_mcp_server/repository.py] and of the
    envelope builders of [tradeinternal_mcp_server/server.py].

    - Python values are a sum type [pyval]; rows (the [DictCursor] mappings)
      are finite maps from column names to values.
    - Exceptions are values of [pyexc]; fallible code lives in [result], code
      that talks to the database gateway in [io], which also records every
      statement handed to the gateway.
    - The CPython library functions the code calls (ISO formatting and
      parsing, UTF-8 decoding, [json.loads], [float]) are not part of the
      repository: they are the fields of the class [PyRuntime]. *)

From Stdlib Require Import ZArith String Ascii List Lia Bool.
From Stdlib.Strings Require Import Byte.
From stdpp Require Import base option list strings gmap sorting.

Local Open Scope Z_scope.
#[local] Set Warnings "-register-all".

(** ** Exceptions and results *)

Inductive exc_class :=
| NameError
| ValueError
| UnicodeDecodeError
| JSONDecodeError
| KeyError
| TypeError
| DatabaseError.

Inductive pyexc := PyExc (cls : exc_class) (msg : string).

Definition exc_class_of (e : pyexc) : exc_class :=
  match e with PyExc c _ => c end.

Definition exc_class_eqb (a b : exc_class) : bool :=
  match a, b with
  | NameError, NameError | ValueError, ValueError
  | UnicodeDecodeError, UnicodeDecodeError | JSONDecodeError, JSONDecodeError
  | KeyError, KeyError | TypeError, TypeError
  | DatabaseError, DatabaseError => true
  | _, _ => false
  end.

(** [issubclass(c, base)] for the classes above: [UnicodeDecodeError] and
    [json.JSONDecodeError] both derive from [ValueError]. *)
Definition is_subclass (c base : exc_class) : bool :=
  exc_class_eqb c base ||
  match c, base with
  | UnicodeDecodeError, ValueError | JSONDecodeError, ValueError => true
  | _, _ => false
  end.

Inductive result (A : Type) :=
| Ok (a : A)
| Raise (e : pyexc).
Arguments Ok {A} a.
Arguments Raise {A} e.

(** Sequencing of statements that may raise. *)
Definition result_bind {A B} (m : result A) (k : A → result B) : result B :=
  match m with Ok a => k a | Raise e => Raise e end.

Notation "x <- m ;; k" := (result_bind m (fun x => k))
  (at level 100, m at next level, right associativity).

(** [try: body except cls: handler] *)
Definition try_except {A} (body : result A) (cls : exc_class) (handler : result A) : result A :=
  match body with
  | Ok a => Ok a
  | Raise e => if is_subclass (exc_class_of e) cls then handler else Raise e
  end.

(** The loop [for x in xs: out.append(f(x))]: the first exception ends it. *)
Fixpoint for_each {A B} (f : A → result B) (xs : list A) : result (list B) :=
  match xs with
  | [] => Ok []
  | x :: xs' => y <- f x;; ys <- for_each f xs';; Ok (y :: ys)
  end.

(** ** Python values *)

Record datetime := {
  year : Z; month : Z; day : Z;
  hour : Z; minute : Z; second : Z; microsecond : Z;
  utcoffset : option Z
}.

Record date := { date_year : Z; date_month : Z; date_day : Z }.

(** [decimal.Decimal]: sign, coefficient and exponent, or a special value. *)
Inductive decimal :=
| DecFinite (negative : bool) (coefficient : N) (exponent : Z)
| DecInfinity (negative : bool)
| DecNaN.

(** A binary floating-point value: [(-1)^negative * mantissa * 2^exponent],
    an infinity or a NaN. *)
Inductive pyfloat :=
| FloatFinite (negative : bool) (mantissa : N) (exponent : Z)
| FloatInfinity (negative : bool)
| FloatNaN.

Inductive pyval :=
| PNone
| PBool (b : bool)
| PInt (z : Z)
| PFloat (f : pyfloat)
| PStr (s : string)
| PBytes (bs : list byte)
| PByteArray (bs : list byte)
| PDatetime (d : datetime)
| PDate (d : date)
| PDecimal (d : decimal)
| PList (items : list pyval)
| PDict (items : list (string * pyval)).

(** A row as [pymysql.cursors.DictCursor] returns it. *)
Abbreviation row := (gmap string pyval).

(** [bool(v)] *)
Definition truthy (v : pyval) : bool :=
  match v with
  | PNone => false
  | PBool b => b
  | PInt z => negb (z =? 0)
  | PFloat (FloatFinite _ m _) => negb (m =? 0)%N
  | PFloat _ => true
  | PStr s => negb (String.eqb s "")
  | PBytes bs | PByteArray bs => match bs with [] => false | _ => true end
  | PDatetime _ | PDate _ => true
  | PDecimal (DecFinite _ c _) => negb (c =? 0)%N
  | PDecimal _ => true
  | PList l => match l with [] => false | _ => true end
  | PDict l => match l with [] => false | _ => true end
  end.

(** [d.get(key)] and [d[key]] *)
Definition dict_get (d : row) (key : string) : pyval := default PNone (d !! key).

Definition dict_getitem (d : row) (key : string) : result pyval :=
  match d !! key with
  | Some v => Ok v
  | None => Raise (PyExc KeyError key)
  end.

(** [sep.join(parts)] *)
Fixpoint join (sep : string) (parts : list string) : string :=
  match parts with
  | [] => ""
  | [p] => p
  | p :: rest => p +:+ sep +:+ join sep rest
  end.

(** ** The library functions the code calls

    Each field is one CPython call site of the repository, with the exception
    classes the library documents for it. Resource exhaustion
    ([MemoryError], [RecursionError]) is outside the model. *)
Class PyRuntime := {
  (** [datetime.isoformat()], [date.isoformat()], [float(Decimal)] *)
  datetime_isoformat : datetime → string;
  date_isoformat : date → string;
  decimal_to_float : decimal → pyfloat;
  (** [datetime.fromisoformat(s)] and [strftime("%Y-%m-%d %H:%M:%S")] *)
  datetime_fromisoformat : string → result datetime;
  datetime_strftime : datetime → string;
  (** [bytes.decode("utf-8")] and [json.loads(s)] *)
  bytes_decode_utf8 : list byte → result string;
  json_loads : string → result pyval;
  fromisoformat_raises : ∀ s e,
    datetime_fromisoformat s = Raise e → exc_class_of e = ValueError;
  decode_raises : ∀ bs e,
    bytes_decode_utf8 bs = Raise e → exc_class_of e = UnicodeDecodeError;
  json_loads_raises : ∀ s e,
    json_loads s = Raise e → exc_class_of e = JSONDecodeError
}.

(** ** repository.py: identifier sanitizer *)

Definition is_identifier_char (c : ascii) : bool :=
  let n := nat_of_ascii c in
  ((65 <=? n) && (n <=? 90) || (97 <=? n) && (n <=? 122) ||
   (48 <=? n) && (n <=? 57) || (n =? 95))%nat.

Definition newline : ascii := ascii_of_nat 10.

(** [ALLOWED_IDENTIFIER.match(s)] for the pattern [^[A-Za-z0-9_]+$], read as
    CPython's [re] reads it: the class is matched one or more times from the
    start, and [$] holds at the end of the string and also just before a
    newline that is the string's last character. [seen] says that at least
    one character of the class has been consumed. *)
Fixpoint allowed_identifier_from (seen : bool) (s : string) : bool :=
  match s with
  | EmptyString => seen
  | String c rest =>
      if is_identifier_char c then allowed_identifier_from true rest
      else seen && Ascii.eqb c newline && String.eqb rest ""
  end.

Definition ALLOWED_IDENTIFIER_match (s : string) : bool :=
  allowed_identifier_from false s.

Definition _sanitize_identifier (value default : string) : result string :=
  let candidate := if truthy (PStr value) then value else default in
  if negb (ALLOWED_IDENTIFIER_match candidate)
  then Raise (PyExc ValueError ("Invalid identifier provided: " +:+ candidate))
  else Ok candidate.

(** ** repository.py: time-frame normalizer *)

(** The names bound at module level in repository.py. None of them is a
    string, so comparing one with a string literal is [False]. *)
Definition repository_globals : list string :=
  [ "annotations"; "dt"; "decimal"; "json"; "os"; "re";
    "Any"; "Dict"; "List"; "Optional"; "DatabaseClient";
    "ALLOWED_IDENTIFIER"; "_sanitize_identifier"; "_normalize_time_frame";
    "_serialize_row"; "CandleRepository"; "VolumeFootprintRepository";
    "CandleCvdRepository"; "EmaRepository" ]%string.

(** Evaluation of [name == literal] inside a function whose local variables
    are [locals]: the name is resolved locally, then at module level (no
    builtin is called [value] or [vahalue]), and an unbound name raises. *)
Definition name_equals (locals : list (string * string)) (name literal : string) : result bool :=
  match snd <$> find (λ kv, String.eqb (fst kv) name) locals with
  | Some v => Ok (String.eqb v literal)
  | None =>
      if existsb (String.eqb name) repository_globals then Ok false
      else Raise (PyExc NameError ("name '" +:+ name +:+ "' is not defined"))
  end.

(** The body of [_normalize_time_frame], with the name its first test reads
    left open: repository.py line 27 reads [vahalue]. *)
Definition normalize_reading (first_name : string) (value : string) : result string :=
  let locals := [("value", value)]%string in
  c <- name_equals locals first_name "1";;
  if c then Ok "1m"%string else
  c <- name_equals locals "value" "5";;
  if c then Ok "5m"%string else
  c <- name_equals locals "value" "15";;
  if c then Ok "15m"%string else
  c <- name_equals locals "value" "30";;
  if c then Ok "30m"%string else
  c <- name_equals locals "value" "45";;
  if c then Ok "45m"%string else
  c <- name_equals locals "value" "60";;
  if c then Ok "1H"%string else
  Ok value.

Definition _normalize_time_frame (value : string) : result string :=
  normalize_reading "vahalue" value.

(** The mapping table of the documentation (spec section 4.2), for comparison
    with the code. *)
Definition time_frame_table (value : string) : string :=
  if String.eqb value "1" then "1m"
  else if String.eqb value "5" then "5m"
  else if String.eqb value "15" then "15m"
  else if String.eqb value "30" then "30m"
  else if String.eqb value "45" then "45m"
  else if String.eqb value "60" then "1H"
  else value.

(** ** repository.py: row serializer *)

Section Serializer.
Context `{PyRuntime}.

Definition serialize_value (value : pyval) : pyval :=
  match value with
  | PDatetime d => PStr (datetime_isoformat d)
  | PDate d => PStr (date_isoformat d)
  | PDecimal d => PFloat (decimal_to_float d)
  | _ => value
  end.

Definition _serialize_row (r : row) : row := serialize_value <$> r.
End Serializer.

(** ** database.py: the gateway

    [DatabaseClient.fetch_all(sql, params)] runs one statement against the
    database and returns its rows or raises. The database is external: a
    gateway is any function of the statement and its bound parameters. *)

Definition query : Type := string * list pyval.
Definition gateway : Type := string → list pyval → result (list row).

(** Code that may call the gateway: the statements sent so far are threaded
    through, so that a caller can tell whether a statement was sent. *)
Definition io (A : Type) : Type := list query → result A * list query.

Definition io_ret {A} (a : A) : io A := fun sent => (Ok a, sent).

Definition io_lift {A} (r : result A) : io A := fun sent => (r, sent).

Definition io_bind {A B} (m : io A) (k : A → io B) : io B := fun sent =>
  match m sent with
  | (Ok a, sent') => k a sent'
  | (Raise e, sent') => (Raise e, sent')
  end.

Notation "x <<- m ;; k" := (io_bind m (fun x => k))
  (at level 100, m at next level, right associativity).

Definition fetch_all (db : gateway) (sql : string) (params : list pyval) : io (list row) :=
  fun sent => (db sql params, sent ++ [(sql, params)]).

(** ** repository.py: the four repositories

    The four classes hold the same attributes and their constructors differ
    in the default table name only. *)

Record Repository := {
  _db : gateway;
  _table : string;
  _symbol_column : string;
  _time_frame_column : string;
  _timestamp_column : string;
  _exchange_column : option string
}.

Definition repository_init (default_table : string) (db : gateway)
    (table symbol_column time_frame_column timestamp_column : string)
    (exchange_column : option string) : result Repository :=
  table <- _sanitize_identifier table default_table;;
  symbol_column <- _sanitize_identifier symbol_column "symbol";;
  time_frame_column <- _sanitize_identifier time_frame_column "time_frame";;
  timestamp_column <- _sanitize_identifier timestamp_column "timestamp";;
  exchange_column <-
    match exchange_column with
    | Some e =>
        if truthy (PStr e)
        then e <- _sanitize_identifier e "exchange";; Ok (Some e)
        else Ok None
    | None => Ok None
    end;;
  Ok {| _db := db; _table := table; _symbol_column := symbol_column;
        _time_frame_column := time_frame_column;
        _timestamp_column := timestamp_column;
        _exchange_column := exchange_column |}.

Definition CandleRepository_init := repository_init "tradingview_candle_data".
Definition VolumeFootprintRepository_init := repository_init "tradingview_volume_footprint".
Definition CandleCvdRepository_init := repository_init "tradingview_candle_cvd".
Definition EmaRepository_init := repository_init "tradingview_ema".

(** [self._exchange_column] when it is truthy *)
Definition exchange_column_set (self : Repository) : option string :=
  match _exchange_column self with
  | Some c => if truthy (PStr c) then Some c else None
  | None => None
  end.

(** The statement and its parameters, from the [SELECT ... FROM ...] part
    on: the lines every fetch method repeats after it has built its column
    list (in [fetch_candles], repository.py lines 105 to 129). *)
Definition build_statement (self : Repository) (select_from : string)
    (symbol time_frame : string) (limit : Z)
    (exchange start_timestamp end_timestamp : option string) : result query :=
  let sql_parts :=
    [ select_from;
      "WHERE " +:+ _symbol_column self +:+ " = %s AND " +:+
        _time_frame_column self +:+ " = %s" ] in
  let params := [PStr symbol; PStr time_frame] in
  st <-
    match exchange with
    | Some ex =>
        match exchange_column_set self with
        | None =>
            Raise (PyExc ValueError
              "Exchange filtering requested but no exchange column configured.")
        | Some col =>
            Ok (sql_parts ++ ["AND " +:+ col +:+ " = %s"], params ++ [PStr ex])
        end
    | None => Ok (sql_parts, params)
    end;;
  let '(sql_parts, params) := st in
  let '(sql_parts, params) :=
    match start_timestamp with
    | Some t =>
        (sql_parts ++ ["AND " +:+ _timestamp_column self +:+ " >= %s"],
         params ++ [PStr t])
    | None => (sql_parts, params)
    end in
  let '(sql_parts, params) :=
    match end_timestamp with
    | Some t =>
        (sql_parts ++ ["AND " +:+ _timestamp_column self +:+ " <= %s"],
         params ++ [PStr t])
    | None => (sql_parts, params)
    end in
  let sql_parts :=
    sql_parts ++ ["ORDER BY " +:+ _timestamp_column self +:+ " DESC"; "LIMIT %s"] in
  let params := params ++ [PInt limit] in
  Ok (join " " sql_parts, params).

(** The column lists of the four [SELECT]s. *)
Definition candle_select_list (self : Repository) : string :=
  "time_frame, symbol, " +:+ _timestamp_column self +:+
  ", open, high, low, close, volume".

Definition footprint_select_columns (self : Repository) : list string :=
  [ "fp_id";
    _time_frame_column self +:+ " AS time_frame";
    _symbol_column self +:+ " AS symbol";
    _timestamp_column self +:+ " AS timestamp" ] ++
  match exchange_column_set self with
  | Some col => [col +:+ " AS exchange"]
  | None => []
  end ++
  [ "poc"; "vah"; "val"; "volume_delta"; "levels"; "total_fp_volume";
    "volume_diff"; "created_at"; "updated_at" ].

Definition cvd_select_columns (self : Repository) : list string :=
  [ "cvd_id" ] ++
  match exchange_column_set self with
  | Some col => [col +:+ " AS exchange"]
  | None => []
  end ++
  [ _symbol_column self +:+ " AS symbol";
    _time_frame_column self +:+ " AS time_frame";
    _timestamp_column self +:+ " AS timestamp";
    "open"; "high"; "low"; "close"; "ohlc_color"; "wick_color"; "border_color" ].

Definition ema_select_columns (self : Repository) : list string :=
  [ "e_id" ] ++
  match exchange_column_set self with
  | Some col => [col +:+ " AS exchange"]
  | None => []
  end ++
  [ _symbol_column self +:+ " AS symbol";
    _time_frame_column self +:+ " AS time_frame";
    _timestamp_column self +:+ " AS timestamp";
    "20_ema"; "50_ema"; "100_ema"; "200_ema"; "date_time" ].

Definition select_from (self : Repository) (columns : string) : string :=
  "SELECT " +:+ columns +:+ " FROM " +:+ _table self.

(** The statement of each fetch method. *)
Definition candles_statement (self : Repository) :=
  build_statement self (select_from self (candle_select_list self)).

Definition volume_footprints_statement (self : Repository) :=
  build_statement self (select_from self (join ", " (footprint_select_columns self))).

Definition cvd_statement (self : Repository) :=
  build_statement self (select_from self (join ", " (cvd_select_columns self))).

Definition ema_statement (self : Repository) :=
  build_statement self (select_from self (join ", " (ema_select_columns self))).

Section Fetch.
Context `{PyRuntime}.

(** The volume-footprint loop body (repository.py lines 238 to 252): the
    pair is the local [levels_value] and the dictionary [serialized]. *)
Definition decode_levels (st : pyval * row) : result (pyval * row) :=
  let '(levels_value, serialized) := st in
  match levels_value with
  | PBytes bs | PByteArray bs =>
      try_except
        (s <- bytes_decode_utf8 bs;;
         Ok (PStr s, <["levels" := PStr s]> serialized))
        UnicodeDecodeError
        (Ok st)
  | _ => Ok st
  end.

Definition parse_levels (st : pyval * row) : result (pyval * row) :=
  let '(levels_value, serialized) := st in
  match levels_value with
  | PStr s =>
      try_except
        (v <- json_loads s;;
         Ok (levels_value, <["levels" := v]> serialized))
        ValueError
        (Ok st)
  | _ => Ok st
  end.

Definition footprint_row (r : row) : result row :=
  let serialized := _serialize_row r in
  let levels_value := dict_get serialized "levels" in
  st <- decode_levels (levels_value, serialized);;
  st <- parse_levels st;;
  Ok (snd st).

(** What each fetch method does once [limit] is clamped and [time_frame]
    normalized: build the statement, run it, reverse and serialize. *)
Definition run_candles (self : Repository) (symbol time_frame : string) (limit : Z)
    (exchange start_timestamp end_timestamp : option string) : io (list row) :=
  q <<- io_lift (candles_statement self symbol time_frame limit
                  exchange start_timestamp end_timestamp);;
  rows <<- fetch_all (_db self) (fst q) (snd q);;
  io_ret (_serialize_row <$> reverse rows).

Definition run_volume_footprints (self : Repository) (symbol time_frame : string)
    (limit : Z) (exchange start_timestamp end_timestamp : option string) : io (list row) :=
  q <<- io_lift (volume_footprints_statement self symbol time_frame limit
                  exchange start_timestamp end_timestamp);;
  rows <<- fetch_all (_db self) (fst q) (snd q);;
  io_lift (for_each footprint_row (reverse rows)).

Definition run_cvd (self : Repository) (symbol time_frame : string) (limit : Z)
    (exchange start_timestamp end_timestamp : option string) : io (list row) :=
  q <<- io_lift (cvd_statement self symbol time_frame limit
                  exchange start_timestamp end_timestamp);;
  rows <<- fetch_all (_db self) (fst q) (snd q);;
  io_ret (_serialize_row <$> reverse rows).

Definition run_ema (self : Repository) (symbol time_frame : string) (limit : Z)
    (exchange start_timestamp end_timestamp : option string) : io (list row) :=
  q <<- io_lift (ema_statement self symbol time_frame limit
                  exchange start_timestamp end_timestamp);;
  rows <<- fetch_all (_db self) (fst q) (snd q);;
  io_ret (_serialize_row <$> reverse rows).

(** The fetch methods. *)
Definition fetch_candles (self : Repository) (symbol time_frame : string) (limit : Z)
    (exchange start_timestamp end_timestamp : option string) : io (list row) :=
  let limit := Z.max 1 (Z.min limit 1000) in
  time_frame <<- io_lift (_normalize_time_frame time_frame);;
  run_candles self symbol time_frame limit exchange start_timestamp end_timestamp.

Definition fetch_volume_footprints (self : Repository) (symbol time_frame : string)
    (limit : Z) (exchange start_timestamp end_timestamp : option string) : io (list row) :=
  let limit := Z.max 1 (Z.min limit 1000) in
  time_frame <<- io_lift (_normalize_time_frame time_frame);;
  run_volume_footprints self symbol time_frame limit exchange start_timestamp end_timestamp.

Definition fetch_cvd (self : Repository) (symbol time_frame : string) (limit : Z)
    (exchange start_timestamp end_timestamp : option string) : io (list row) :=
  let limit := Z.max 1 (Z.min limit 1000) in
  time_frame <<- io_lift (_normalize_time_frame time_frame);;
  run_cvd self symbol time_frame limit exchange start_timestamp end_timestamp.

Definition fetch_ema (self : Repository) (symbol time_frame : string) (limit : Z)
    (exchange start_timestamp end_timestamp : option string) : io (list row) :=
  let limit := Z.max 1 (Z.min limit 1000) in
  time_frame <<- io_lift (_normalize_time_frame time_frame);;
  run_ema self symbol time_frame limit exchange start_timestamp end_timestamp.
End Fetch.

(** ** server.py: the response envelope *)

(** The dictionary every [format_*_response] returns: the two bounds, the
    count, and the rows under the entity's key. *)
Record envelope := {
  start_timestamp : pyval;
  end_timestamp : pyval;
  count : nat;
  entity_key : string;
  entity_rows : list row
}.

Section Envelope.
Context `{PyRuntime}.

Definition _format_timestamp (value : pyval) : result pyval :=
  if negb (truthy value) then Ok PNone else
  match value with
  | PStr s =>
      match datetime_fromisoformat s with
      | Ok dt_value => Ok (PStr (datetime_strftime dt_value))
      | Raise e =>
          if is_subclass (exc_class_of e) ValueError then Ok value else Raise e
      end
  | _ => Raise (PyExc TypeError "fromisoformat: argument must be str")
  end.

(** [rows[0]["timestamp"] if rows else None] and
    [rows[-1]["timestamp"] if rows else None] *)
Definition first_timestamp (rows : list row) : result pyval :=
  match rows with
  | [] => Ok PNone
  | r :: _ => dict_getitem r "timestamp"
  end.

Definition last_timestamp (rows : list row) : result pyval :=
  match last rows with
  | None => Ok PNone
  | Some r => dict_getitem r "timestamp"
  end.

Definition format_response (key : string) (rows out_rows : list row) : result envelope :=
  start_iso <- first_timestamp rows;;
  end_iso <- last_timestamp rows;;
  start_ts <- _format_timestamp start_iso;;
  end_ts <- _format_timestamp end_iso;;
  Ok {| start_timestamp := start_ts; end_timestamp := end_ts;
        count := length rows; entity_key := key; entity_rows := out_rows |}.

Definition format_candle_response (rows : list row) : result envelope :=
  format_response "candles" rows rows.

Definition format_volume_footprint_response (rows : list row) : result envelope :=
  format_response "footprints" rows rows.

Definition format_cvd_response (rows : list row) : result envelope :=
  format_response "cvd" rows rows.

(** [{**row, "_20_ema": row.get("20_ema"), ...}] *)
Definition ema_row (r : row) : row :=
  <["_200_ema" := dict_get r "200_ema"]>
    (<["_100_ema" := dict_get r "100_ema"]>
      (<["_50_ema" := dict_get r "50_ema"]>
        (<["_20_ema" := dict_get r "20_ema"]> r))).

Definition format_ema_response (rows : list row) : result envelope :=
  format_response "ema" rows (ema_row <$> rows).
End Envelope.

(** ** The process environment

    [os.environ] as the code reads it, that is after [load_dotenv()] has
    added the variables of the [.env] file. *)
Abbreviation environ := (gmap string string).

(** [os.getenv(name)], [os.getenv(name, default)] and [os.environ[name]] *)
Definition getenv (env : environ) (name : string) : option string := env !! name.

Definition getenv_default (env : environ) (name default : string) : string :=
  match env !! name with
  | Some v => v
  | None => default
  end.

Definition environ_getitem (env : environ) (name : string) : result string :=
  match env !! name with
  | Some v => Ok v
  | None => Raise (PyExc KeyError name)
  end.

(** ** repository.py: [from_env] *)

Definition CandleRepository_from_env (db : gateway) (env : environ) : result Repository :=
  CandleRepository_init db
    (getenv_default env "CANDLE_TABLE" "tradingview_candle_data")
    (getenv_default env "CANDLE_SYMBOL_COLUMN" "symbol")
    (getenv_default env "CANDLE_TIME_FRAME_COLUMN" "time_frame")
    (getenv_default env "CANDLE_TIMESTAMP_COLUMN" "timestamp")
    (Some (getenv_default env "CANDLE_EXCHANGE_COLUMN" "exchange")).

Definition VolumeFootprintRepository_from_env (db : gateway) (env : environ) : result Repository :=
  VolumeFootprintRepository_init db
    (getenv_default env "FOOTPRINT_TABLE" "tradingview_volume_footprint")
    (getenv_default env "FOOTPRINT_SYMBOL_COLUMN" "symbol")
    (getenv_default env "FOOTPRINT_TIME_FRAME_COLUMN" "time_frame")
    (getenv_default env "FOOTPRINT_TIMESTAMP_COLUMN" "timestamp")
    (getenv env "FOOTPRINT_EXCHANGE_COLUMN").

Definition CandleCvdRepository_from_env (db : gateway) (env : environ) : result Repository :=
  CandleCvdRepository_init db
    (getenv_default env "CVD_TABLE" "tradingview_candle_cvd")
    (getenv_default env "CVD_SYMBOL_COLUMN" "symbol")
    (getenv_default env "CVD_TIME_FRAME_COLUMN" "time_frame")
    (getenv_default env "CVD_TIMESTAMP_COLUMN" "timestamp")
    (Some (getenv_default env "CVD_EXCHANGE_COLUMN" "exchange")).

Definition EmaRepository_from_env (db : gateway) (env : environ) : result Repository :=
  EmaRepository_init db
    (getenv_default env "EMA_TABLE" "tradingview_ema")
    (getenv_default env "EMA_SYMBOL_COLUMN" "symbol")
    (getenv_default env "EMA_TIME_FRAME_COLUMN" "time_frame")
    (getenv_default env "EMA_TIMESTAMP_COLUMN" "timestamp")
    (Some (getenv_default env "EMA_EXCHANGE_COLUMN" "exchange")).

(** ** config.py and the exceptions of the server layer *)

(** What a request or the start-up can end in besides the exceptions of
    [pyexc]: the [RuntimeError] of config.py and FastAPI's
    [HTTPException]. *)
Inductive server_exc :=
| PyRaised (e : pyexc)
| RuntimeError (msg : string)
| HTTPException (status_code : Z) (detail : string).

Inductive outcome (A : Type) :=
| Done (a : A)
| Failed (e : server_exc).
Arguments Done {A} a.
Arguments Failed {A} e.

Definition of_result {A} (r : result A) : outcome A :=
  match r with
  | Ok a => Done a
  | Raise e => Failed (PyRaised e)
  end.

Record DatabaseConfig := {
  host : string;
  port : Z;
  user : string;
  password : string;
  database : string
}.

Definition required_variables : list string :=
  ["DB_HOST"; "DB_PORT"; "DB_USER"; "DB_PASSWORD"; "DB_NAME"]%string.

(** [not os.getenv(var)] *)
Definition variable_missing (env : environ) (var : string) : bool :=
  match getenv env var with
  | Some v => negb (truthy (PStr v))
  | None => true
  end.

Section Config.
(** [int(text)]: [None] when it raises [ValueError]. *)
Variable parse_int : string → option Z.

Definition DatabaseConfig_from_env (env : environ) : outcome DatabaseConfig :=
  let missing := List.filter (variable_missing env) required_variables in
  match missing with
  | _ :: _ =>
      Failed (RuntimeError
        ("Missing required database environment variables: " +:+ join ", " missing))
  | [] =>
      of_result
        (host <- environ_getitem env "DB_HOST";;
         port_text <- environ_getitem env "DB_PORT";;
         port <- match parse_int port_text with
                 | Some n => Ok n
                 | None => Raise (PyExc ValueError
                             ("invalid literal for int() with base 10: '" +:+
                              port_text +:+ "'"))
                 end;;
         user <- environ_getitem env "DB_USER";;
         password <- environ_getitem env "DB_PASSWORD";;
         database <- environ_getitem env "DB_NAME";;
         Ok {| host := host; port := port; user := user;
               password := password; database := database |})
  end.
End Config.

(** ** database.py: [DatabaseClient]

    The driver is external. For one call of [fetch_all] it is described by
    the outcome of each call the client makes, in the order it makes them;
    [conn.close()] on a connection that was opened returns. *)
Record driver := {
  connect : DatabaseConfig → result unit;
  open_cursor : result unit;
  execute : string → list pyval → result unit;
  fetchall : string → list pyval → result (list row);
  close_cursor : result unit
}.

Inductive db_event :=
| Connected
| CursorOpened
| ExecuteCalled (sql : string) (params : list pyval)
| CursorClosed
| ConnectionClosed.

(** The body of the [with] statement of [fetch_all]. *)
Definition fetch_all_body (d : driver) (sql : string) (params : list pyval)
    : result (list row) * list db_event :=
  (_ <- execute d sql params;; fetchall d sql params, [ExecuteCalled sql params]).

(** [with conn.cursor() as cursor: body]: the cursor is closed when the body
    is left, and an exception of [cursor.close()] replaces the body's
    result. *)
Definition with_cursor (d : driver) (body : result (list row) * list db_event)
    : result (list row) * list db_event :=
  match open_cursor d with
  | Raise e => (Raise e, [])
  | Ok _ =>
      let '(r, events) := body in
      (match close_cursor d with
       | Ok _ => r
       | Raise e => Raise e
       end,
       [CursorOpened] ++ events ++ [CursorClosed])
  end.

(** [with self.connection() as conn: body]: [connection] connects, yields
    and closes the connection in its [finally]. *)
Definition with_connection (d : driver) (config : DatabaseConfig)
    (body : result (list row) * list db_event) : result (list row) * list db_event :=
  match connect d config with
  | Raise e => (Raise e, [])
  | Ok _ =>
      let '(r, events) := body in
      (r, [Connected] ++ events ++ [ConnectionClosed])
  end.

Definition DatabaseClient_fetch_all (d : driver) (config : DatabaseConfig)
    (sql : string) (params : list pyval) : result (list row) * list db_event :=
  with_connection d config (with_cursor d (fetch_all_body d sql params)).

(** [DatabaseClient(config)] as the repositories use it. *)
Definition DatabaseClient (d : driver) (config : DatabaseConfig) : gateway :=
  fun sql params => fst (DatabaseClient_fetch_all d config sql params).

(** ** server.py: the cached repositories and the tools *)

(** The four module-level globals. *)
Record server_state := {
  _repository : option Repository;
  _volume_repository : option Repository;
  _cvd_repository : option Repository;
  _ema_repository : option Repository
}.

Definition initial_state : server_state :=
  {| _repository := None; _volume_repository := None;
     _cvd_repository := None; _ema_repository := None |}.

Section Server.
Context `{PyRuntime}.
Variable parse_int : string → option Z.
Variable d : driver.

(** The part every getter runs when its global is [None]. *)
Definition build_repository (from_env : gateway → environ → result Repository)
    (env : environ) : outcome Repository :=
  match DatabaseConfig_from_env parse_int env with
  | Failed e => Failed e
  | Done config =>
      let db_client := DatabaseClient d config in
      of_result (from_env db_client env)
  end.

Definition get_repository (env : environ) (st : server_state)
    : outcome Repository * server_state :=
  match _repository st with
  | Some r => (Done r, st)
  | None =>
      match build_repository CandleRepository_from_env env with
      | Done r =>
          (Done r, {| _repository := Some r;
                      _volume_repository := _volume_repository st;
                      _cvd_repository := _cvd_repository st;
                      _ema_repository := _ema_repository st |})
      | Failed e => (Failed e, st)
      end
  end.

Definition get_volume_repository (env : environ) (st : server_state)
    : outcome Repository * server_state :=
  match _volume_repository st with
  | Some r => (Done r, st)
  | None =>
      match build_repository VolumeFootprintRepository_from_env env with
      | Done r =>
          (Done r, {| _repository := _repository st;
                      _volume_repository := Some r;
                      _cvd_repository := _cvd_repository st;
                      _ema_repository := _ema_repository st |})
      | Failed e => (Failed e, st)
      end
  end.

Definition get_cvd_repository (env : environ) (st : server_state)
    : outcome Repository * server_state :=
  match _cvd_repository st with
  | Some r => (Done r, st)
  | None =>
      match build_repository CandleCvdRepository_from_env env with
      | Done r =>
          (Done r, {| _repository := _repository st;
                      _volume_repository := _volume_repository st;
                      _cvd_repository := Some r;
                      _ema_repository := _ema_repository st |})
      | Failed e => (Failed e, st)
      end
  end.

Definition get_ema_repository (env : environ) (st : server_state)
    : outcome Repository * server_state :=
  match _ema_repository st with
  | Some r => (Done r, st)
  | None =>
      match build_repository EmaRepository_from_env env with
      | Done r =>
          (Done r, {| _repository := _repository st;
                      _volume_repository := _volume_repository st;
                      _cvd_repository := _cvd_repository st;
                      _ema_repository := Some r |})
      | Failed e => (Failed e, st)
      end
  end.

(** A tool: get the repository, fetch, format. *)
Definition run_tool
    (getter : environ → server_state → outcome Repository * server_state)
    (fetch : Repository → io (list row))
    (format : list row → result envelope)
    (env : environ) (st : server_state) : outcome envelope * server_state :=
  match getter env st with
  | (Failed e, st') => (Failed e, st')
  | (Done repository, st') =>
      (of_result (rows <- fst (fetch repository []);; format rows), st')
  end.

Definition get_candles (env : environ) (st : server_state)
    (symbol time_frame : string) (limit : Z)
    (exchange start_timestamp end_timestamp : option string) :=
  run_tool get_repository
    (λ r, fetch_candles r symbol time_frame limit exchange start_timestamp end_timestamp)
    format_candle_response env st.

Definition get_volume_footprint (env : environ) (st : server_state)
    (symbol time_frame : string) (limit : Z)
    (exchange start_timestamp end_timestamp : option string) :=
  run_tool get_volume_repository
    (λ r, fetch_volume_footprints r symbol time_frame limit exchange
            start_timestamp end_timestamp)
    format_volume_footprint_response env st.

Definition get_cvd (env : environ) (st : server_state)
    (symbol time_frame : string) (limit : Z)
    (exchange start_timestamp end_timestamp : option string) :=
  run_tool get_cvd_repository
    (λ r, fetch_cvd r symbol time_frame limit exchange start_timestamp end_timestamp)
    format_cvd_response env st.

Definition get_ema (env : environ) (st : server_state)
    (symbol time_frame : string) (limit : Z)
    (exchange start_timestamp end_timestamp : option string) :=
  run_tool get_ema_repository
    (λ r, fetch_ema r symbol time_frame limit exchange start_timestamp end_timestamp)
    format_ema_response env st.
End Server.

(** ** api.py: the HTTP handlers

    Each handler runs the fetch and the envelope builder inside
    [try ... except ValueError as exc: raise HTTPException(400, str(exc))]. *)
Section Api.
Context `{PyRuntime}.

Definition handle
    (fetch : io (list row)) (format : list row → result envelope) : outcome envelope :=
  match (rows <- fst (fetch []);; format rows) with
  | Ok response => Done response
  | Raise (PyExc cls msg) =>
      if is_subclass cls ValueError then Failed (HTTPException 400 msg)
      else Failed (PyRaised (PyExc cls msg))
  end.

Definition api_get_candles (repository : Repository) (symbol time_frame : string)
    (limit : Z) (exchange start_timestamp end_timestamp : option string) :=
  handle (fetch_candles repository symbol time_frame limit exchange
            start_timestamp end_timestamp) format_candle_response.

Definition api_get_cvd (repository : Repository) (symbol time_frame : string)
    (limit : Z) (exchange start_timestamp end_timestamp : option string) :=
  handle (fetch_cvd repository symbol time_frame limit exchange
            start_timestamp end_timestamp) format_cvd_response.

Definition api_get_ema (repository : Repository) (symbol time_frame : string)
    (limit : Z) (exchange start_timestamp end_timestamp : option string) :=
  handle (fetch_ema repository symbol time_frame limit exchange
            start_timestamp end_timestamp) format_ema_response.

Definition api_get_volume_footprint (repository : Repository) (symbol time_frame : string)
    (limit : Z) (exchange start_timestamp end_timestamp : option string) :=
  handle (fetch_volume_footprints repository symbol time_frame limit exchange
            start_timestamp end_timestamp) format_volume_footprint_response.
End Api.

(** ** An executable runtime for the examples

    A small instance of [PyRuntime] on which the examples below evaluate. It
    covers naive date-times in the layout [YYYY-MM-DDTHH:MM:SS] (what
    [isoformat] prints for a [DATETIME] column without fractional seconds),
    ASCII byte strings, and the JSON texts listed in [sample_json]; on these
    inputs it returns what CPython returns. Every other input is rejected
    with the exception class the library documents, also inputs that CPython
    accepts (other ISO-8601 layouts, multi-byte UTF-8, other JSON texts). *)
Module SampleRuntime.

Definition digit (n : Z) : ascii := ascii_of_nat (48 + Z.to_nat (n mod 10)).

Definition pad2 (n : Z) : string :=
  String (digit (n / 10)) (String (digit n) "").

Definition pad4 (n : Z) : string := pad2 (n / 100) +:+ pad2 (n mod 100).

Definition pad6 (n : Z) : string := pad2 (n / 10000) +:+ pad4 (n mod 10000).

Definition print_date (y m d : Z) : string :=
  pad4 y +:+ "-" +:+ pad2 m +:+ "-" +:+ pad2 d.

Definition print_time (h m s : Z) : string :=
  pad2 h +:+ ":" +:+ pad2 m +:+ ":" +:+ pad2 s.

Definition print_offset (o : option Z) : string :=
  match o with
  | None => ""
  | Some secs =>
      (if secs <? 0 then "-" else "+") +:+
      pad2 (Z.abs secs / 3600) +:+ ":" +:+ pad2 (Z.abs secs mod 3600 / 60)
  end.

Definition isoformat (d : datetime) : string :=
  print_date (year d) (month d) (day d) +:+ "T" +:+
  print_time (hour d) (minute d) (second d) +:+
  (if microsecond d =? 0 then "" else "." +:+ pad6 (microsecond d)) +:+
  print_offset (utcoffset d).

Definition strftime (d : datetime) : string :=
  print_date (year d) (month d) (day d) +:+ " " +:+
  print_time (hour d) (minute d) (second d).

Definition digit_value (c : ascii) : option Z :=
  let n := nat_of_ascii c in
  if ((48 <=? n) && (n <=? 57))%nat then Some (Z.of_nat n - 48) else None.

Fixpoint number (cs : list ascii) (acc : Z) : option Z :=
  match cs with
  | [] => Some acc
  | c :: cs' =>
      match digit_value c with
      | Some v => number cs' (10 * acc + v)
      | None => None
      end
  end.

Definition is_leap (y : Z) : bool :=
  (y mod 4 =? 0) && (negb (y mod 100 =? 0) || (y mod 400 =? 0)).

Definition days_in_month (y m : Z) : Z :=
  if m =? 2 then (if is_leap y then 29 else 28)
  else if (m =? 4) || (m =? 6) || (m =? 9) || (m =? 11) then 30
  else 31.

Definition is_char (c : ascii) (s : string) : bool :=
  String.eqb (String c "") s.

Definition parse_iso (s : string) : option datetime :=
  match list_ascii_of_string s with
  | [y1; y2; y3; y4; a; m1; m2; b; d1; d2; _; h1; h2; c; n1; n2; e; s1; s2] =>
      y ← number [y1; y2; y3; y4] 0;
      m ← number [m1; m2] 0;
      d ← number [d1; d2] 0;
      h ← number [h1; h2] 0;
      n ← number [n1; n2] 0;
      z ← number [s1; s2] 0;
      if is_char a "-" && is_char b "-" && is_char c ":" && is_char e ":" &&
         (1 <=? y) && (1 <=? m) && (m <=? 12) && (1 <=? d) &&
         (d <=? days_in_month y m) && (h <? 24) && (n <? 60) && (z <? 60)
      then Some {| year := y; month := m; day := d; hour := h; minute := n;
                   second := z; microsecond := 0; utcoffset := None |}
      else None
  | _ => None
  end.

Definition fromisoformat (s : string) : result datetime :=
  match parse_iso s with
  | Some d => Ok d
  | None => Raise (PyExc ValueError ("Invalid isoformat string: '" +:+ s +:+ "'"))
  end.

Definition ascii_text (bs : list byte) : option string :=
  if forallb (λ b, (Byte.to_nat b <? 128)%nat) bs
  then Some (string_of_list_ascii (ascii_of_byte <$> bs))
  else None.

Definition decode_utf8 (bs : list byte) : result string :=
  match ascii_text bs with
  | Some s => Ok s
  | None =>
      Raise (PyExc UnicodeDecodeError "'utf-8' codec can't decode byte")
  end.

Definition quote : string := String (ascii_of_nat 34) "".

(** The JSON object with the one member [a] bound to 1. *)
Definition json_a1 : string := "{" +:+ quote +:+ "a" +:+ quote +:+ ":1}".

Definition sample_json : list (string * pyval) :=
  [ (json_a1, PDict [("a"%string, PInt 1)]);
    ("[]"%string, PList []);
    ("null"%string, PNone);
    ("42"%string, PInt 42) ].

Definition loads (s : string) : result pyval :=
  match find (λ kv, String.eqb (fst kv) s) sample_json with
  | Some kv => Ok (snd kv)
  | None => Raise (PyExc JSONDecodeError "Expecting value")
  end.

(** [float(Decimal)] on the integral decimals; other decimals are
    truncated to 60 binary places. *)
Definition to_float (d : decimal) : pyfloat :=
  match d with
  | DecFinite neg c e =>
      if 0 <=? e then FloatFinite neg (c * 10 ^ Z.to_N e) 0
      else FloatFinite neg (c * 2 ^ 60 / 10 ^ Z.to_N (- e)) (-60)
  | DecInfinity neg => FloatInfinity neg
  | DecNaN => FloatNaN
  end.

#[refine, export] Instance runtime : PyRuntime := {|
  datetime_isoformat := isoformat;
  date_isoformat := fun d => print_date (date_year d) (date_month d) (date_day d);
  decimal_to_float := to_float;
  datetime_fromisoformat := fromisoformat;
  datetime_strftime := strftime;
  bytes_decode_utf8 := decode_utf8;
  json_loads := loads
|}.
Proof.
  - intros s e. unfold fromisoformat.
    destruct (parse_iso s); intros [= <-]; reflexivity.
  - intros bs e. unfold decode_utf8.
    destruct (ascii_text bs); intros [= <-]; reflexivity.
  - intros s e. unfold loads.
    destruct (find _ sample_json); intros [= <-]; reflexivity.
Defined.

End SampleRuntime.


(** ** Properties stated in the documentation's words *)

(** A string that consists, in full, of one or more characters of
    [[A-Za-z0-9_]]. *)
Fixpoint all_identifier_chars (s : string) : bool :=
  match s with
  | EmptyString => true
  | String c rest => is_identifier_char c && all_identifier_chars rest
  end.

Definition plain_identifier (s : string) : bool :=
  negb (String.eqb s "") && all_identifier_chars s.

(** The bound the envelope shows for a timestamp string. *)
Definition display_timestamp `{PyRuntime} (s : string) : pyval :=
  if String.eqb s "" then PNone
  else match datetime_fromisoformat s with
       | Ok d => PStr (datetime_strftime d)
       | Raise _ => PStr s
       end.

(** The normalized [levels] value: bytes are decoded when they are UTF-8,
    text is parsed when it is JSON, everything else is kept. *)
Definition levels_text `{PyRuntime} (v : pyval) : option string :=
  match v with
  | PBytes bs | PByteArray bs =>
      match bytes_decode_utf8 bs with Ok s => Some s | Raise _ => None end
  | PStr s => Some s
  | _ => None
  end.

Definition levels_outcome `{PyRuntime} (v : pyval) : pyval :=
  match levels_text v with
  | Some s => match json_loads s with Ok parsed => parsed | Raise _ => PStr s end
  | None => v
  end.

(** The bound parameters an optional argument contributes. *)
Definition optional_param (o : option string) : list pyval :=
  match o with Some s => [PStr s] | None => [] end.

Definition provided (o : option string) : bool :=
  match o with Some _ => true | None => false end.

Definition statement_text (r : result query) : result string :=
  q <- r;; Ok (fst q).

(** The EMA source columns and their duplicates. *)
Definition ema_source_keys : list string := ["20_ema"; "50_ema"; "100_ema"; "200_ema"]%string.
Definition ema_duplicate_keys : list string := ["_20_ema"; "_50_ema"; "_100_ema"; "_200_ema"]%string.

(** A row whose [timestamp] is text or null, as the row types of server.py
    declare it. *)
Definition text_timestamp (r : row) : bool :=
  match r !! "timestamp"%string with
  | Some (PStr _) | Some PNone => true
  | _ => false
  end.

Definition unbound_vahalue : pyexc :=
  PyExc NameError "name 'vahalue' is not defined".

Definition no_exchange_column : pyexc :=
  PyExc ValueError "Exchange filtering requested but no exchange column configured.".

(** Repositories as the constructors build them from the defaults of
    [from_env]. *)
Definition default_candle_repository (db : gateway) : result Repository :=
  CandleRepository_init db "tradingview_candle_data" "symbol" "time_frame"
    "timestamp" (Some "exchange"%string).

Definition default_footprint_repository (db : gateway) : result Repository :=
  VolumeFootprintRepository_init db "tradingview_volume_footprint" "symbol"
    "time_frame" "timestamp" None.

(** A string without its final newline, when it ends in one. *)
Fixpoint strip_final_newline (s : string) : string :=
  match s with
  | EmptyString => EmptyString
  | String c rest =>
      if Ascii.eqb c newline && String.eqb rest "" then EmptyString
      else String c (strip_final_newline rest)
  end.

(** The statement text the documentation gives (spec section 4.4, steps 3
    to 7), with [%s] for each bound parameter. The flags say which optional
    arguments were provided. *)
Definition expected_sql (self : Repository) (columns : string) (ex st en : bool) : string :=
  "SELECT " +:+ columns +:+ " FROM " +:+ _table self +:+
  " WHERE " +:+ _symbol_column self +:+ " = %s AND " +:+
  _time_frame_column self +:+ " = %s" +:+
  (if ex then " AND " +:+ default "" (exchange_column_set self) +:+ " = %s" else "") +:+
  (if st then " AND " +:+ _timestamp_column self +:+ " >= %s" else "") +:+
  (if en then " AND " +:+ _timestamp_column self +:+ " <= %s" else "") +:+
  " ORDER BY " +:+ _timestamp_column self +:+ " DESC LIMIT %s".

Definition expected_params (symbol time_frame : string) (limit : Z)
    (exchange start_timestamp end_timestamp : option string) : list pyval :=
  [PStr symbol; PStr time_frame] ++ optional_param exchange ++
  optional_param start_timestamp ++ optional_param end_timestamp ++ [PInt limit].

(** The exchange filter is refused: an exchange is given and the repository
    has no exchange column. *)
Definition filter_refused (self : Repository) (exchange : option string) : bool :=
  provided exchange && negb (provided (exchange_column_set self)).

(** The bound the envelope shows for a timestamp value that is text or
    null. *)
Definition bound_of `{PyRuntime} (v : pyval) : pyval :=
  match v with
  | PStr s => display_timestamp s
  | _ => PNone
  end.

(** A gateway over an empty table, and a candle repository with every
    default but the symbol and time-frame columns. *)
Definition empty_gateway : gateway := fun _ _ => Ok [].

Definition renamed_candle_repository : Repository :=
  {| _db := empty_gateway; _table := "tradingview_candle_data";
     _symbol_column := "ticker"; _time_frame_column := "resolution";
     _timestamp_column := "timestamp"; _exchange_column := Some "exchange"%string |}.

(** Sample rows. *)
Definition candle_at (timestamp : string) : row :=
  {[ "timestamp"%string := PStr timestamp; "close"%string := PInt 100 ]}.

Definition sample_ema_row : row :=
  {[ "timestamp"%string := PStr "2024-01-05T09:15:00";
     "symbol"%string := PStr "BANKNIFTY1!";
     "20_ema"%string := PInt 20; "50_ema"%string := PInt 50;
     "100_ema"%string := PInt 100; "200_ema"%string := PInt 200 ]}.

(** Repositories with the constructors' default names. *)
Definition candle_repository (db : gateway) : Repository :=
  {| _db := db; _table := "tradingview_candle_data"; _symbol_column := "symbol";
     _time_frame_column := "time_frame"; _timestamp_column := "timestamp";
     _exchange_column := Some "exchange"%string |}.

Definition footprint_repository (db : gateway) : Repository :=
  {| _db := db; _table := "tradingview_volume_footprint"; _symbol_column := "symbol";
     _time_frame_column := "time_frame"; _timestamp_column := "timestamp";
     _exchange_column := None |}.

(** Rows as the driver returns them: a [DATETIME] and a [DECIMAL] column. *)
Definition stored_candle (at_minute : Z) (close : N) : row :=
  {[ "timestamp"%string :=
       PDatetime {| year := 2024; month := 1; day := 5; hour := 9;
                    minute := at_minute; second := 0; microsecond := 0;
                    utcoffset := None |};
     "close"%string := PDecimal (DecFinite false close 0) ]}.

(** A gateway that answers every statement with the three most recent
    candles, newest first, and one that answers with two footprint rows. *)
Definition candle_gateway : gateway := fun _ _ =>
  Ok [stored_candle 45 103; stored_candle 30 102; stored_candle 15 101].

Definition footprint_gateway : gateway := fun _ _ =>
  Ok [ {[ "levels"%string := PStr "not json" ]};
       {[ "levels"%string := PStr SampleRuntime.json_a1 ]} ].

(** The same candles as the fetch body serves them. *)
Definition served_candle (at_minute : string) (close : N) : row :=
  {[ "timestamp"%string := PStr ("2024-01-05T09:" +:+ at_minute +:+ ":00");
     "close"%string := PFloat (FloatFinite false close 0) ]}.

(** ** Notions used by the properties of the remaining code *)

(** [value or default] on texts. *)
Definition chosen (value default : string) : string :=
  if String.eqb value "" then default else value.

(** The exchange column a constructor keeps: none for [None] and for the
    empty text. *)
Definition exchange_choice (exchange_column : option string) : option string :=
  match exchange_column with
  | Some e => if String.eqb e "" then None else Some e
  | None => None
  end.

Definition accepted_option (name : option string) : bool :=
  match name with
  | Some e => ALLOWED_IDENTIFIER_match e
  | None => true
  end.

(** Every name a constructor is given passes the pattern, once the defaults
    are filled in. *)
Definition names_accepted (default_table table symbol_column time_frame_column
    timestamp_column : string) (exchange_column : option string) : bool :=
  ALLOWED_IDENTIFIER_match (chosen table default_table) &&
  ALLOWED_IDENTIFIER_match (chosen symbol_column "symbol") &&
  ALLOWED_IDENTIFIER_match (chosen time_frame_column "time_frame") &&
  ALLOWED_IDENTIFIER_match (chosen timestamp_column "timestamp") &&
  accepted_option (exchange_choice exchange_column).

(** A repository whose names all pass the pattern. *)
Definition sanitized (self : Repository) : bool :=
  ALLOWED_IDENTIFIER_match (_table self) &&
  ALLOWED_IDENTIFIER_match (_symbol_column self) &&
  ALLOWED_IDENTIFIER_match (_time_frame_column self) &&
  ALLOWED_IDENTIFIER_match (_timestamp_column self) &&
  accepted_option (_exchange_column self).

(** The number of [%] characters of a text: in a statement, the number of
    placeholders the driver fills. *)
Fixpoint count_percent (s : string) : nat :=
  match s with
  | EmptyString => 0
  | String c rest =>
      ((if Ascii.eqb c "%" then 1 else 0) + count_percent rest)%nat
  end.

(** The two bounds of an envelope, or the exception raised instead. *)
Definition bounds (r : result envelope) : result (pyval * pyval) :=
  env <- r;; Ok (start_timestamp env, end_timestamp env).

(** Values the serializer converts. *)
Definition native_value (v : pyval) : bool :=
  match v with
  | PDatetime _ | PDate _ | PDecimal _ => true
  | _ => false
  end.

(** Row [a] has a later timestamp text than row [b]. *)
Definition later (a b : row) : Prop :=
  match a !! "timestamp"%string, b !! "timestamp"%string with
  | Some (PStr x), Some (PStr y) => String.ltb y x = true
  | _, _ => False
  end.

(** The variables of the environment all set and non-empty. *)
Definition all_set (env : environ) : bool :=
  forallb (λ var, negb (variable_missing env var)) required_variables.

(** What the first call of a getter ends in, for the environment [env] it
    reads: a repository on a gateway for the configuration of [env], with
    names that pass the pattern, or one of two exceptions. *)
Definition first_call_outcome (parse_int : string → option Z) (d : driver)
    (env : environ) (o : outcome Repository) : Prop :=
  match o with
  | Done r =>
      ∃ config, DatabaseConfig_from_env parse_int env = Done config ∧
        _db r = DatabaseClient d config ∧ sanitized r = true
  | Failed (RuntimeError _) => all_set env = false
  | Failed (PyRaised e) => all_set env = true ∧ exc_class_of e = ValueError
  | Failed (HTTPException _ _) => False
  end.

(** A complete environment, a driver whose calls all succeed on the stored
    candles, and [int] on decimal digits, for the examples. *)
Definition sample_environ : environ :=
  {[ "DB_HOST"%string := "localhost"%string; "DB_PORT"%string := "3306"%string;
     "DB_USER"%string := "reader"%string; "DB_PASSWORD"%string := "secret"%string;
     "DB_NAME"%string := "market"%string ]}.

Definition sample_driver : driver :=
  {| connect := fun _ => Ok tt; open_cursor := Ok tt;
     execute := fun _ _ => Ok tt; fetchall := candle_gateway;
     close_cursor := Ok tt |}.

Definition sample_int (text : string) : option Z :=
  match text with
  | EmptyString => None
  | _ => SampleRuntime.number (list_ascii_of_string text) 0
  end.

(** * Theorems *)

(** ** The time-frame normalizer *)

Lemma name_equals_value value literal :
  name_equals [("value"%string, value)] "value" literal = Ok (String.eqb value literal).
Proof. reflexivity. Qed.

(** With its first test reading [value], the body computes the documented
    table on every input. *)
Lemma normalize_reading_value value :
  normalize_reading "value" value = Ok (time_frame_table value).
Proof.
  unfold normalize_reading, time_frame_table.
  rewrite !name_equals_value. cbn [result_bind].
  repeat (destruct (String.eqb value _); [reflexivity|]).
  reflexivity.
Qed.

Lemma time_frame_table_idempotent value :
  time_frame_table (time_frame_table value) = time_frame_table value.
Proof.
  unfold time_frame_table.
  destruct (String.eqb_spec value "1") as [->|]; [reflexivity|].
  destruct (String.eqb_spec value "5") as [->|]; [reflexivity|].
  destruct (String.eqb_spec value "15") as [->|]; [reflexivity|].
  destruct (String.eqb_spec value "30") as [->|]; [reflexivity|].
  destruct (String.eqb_spec value "45") as [->|]; [reflexivity|].
  destruct (String.eqb_spec value "60") as [->|]; [reflexivity|].
  repeat match goal with
         | H : value ≠ _ |- _ => apply String.eqb_neq in H; rewrite H; clear H
         end.
  reflexivity.
Qed.

(** C1 (code as written): on every input, [_normalize_time_frame] raises
    [NameError] for the unbound name [vahalue] that its first test reads; it
    returns no label, neither for the legacy tokens nor for canonical ones. *)
Theorem normalize_time_frame_raises value :
  _normalize_time_frame value = Raise unbound_vahalue.
Proof. reflexivity. Qed.

(** ** The identifier sanitizer *)

Lemma newline_not_identifier_char c :
  is_identifier_char c = true → Ascii.eqb c newline = false.
Proof.
  intros Hc. destruct (Ascii.eqb_spec c newline) as [->|]; [|reflexivity].
  discriminate Hc.
Qed.

Lemma allowed_identifier_from_strip seen s :
  allowed_identifier_from seen s =
  (seen || negb (String.eqb (strip_final_newline s) "")) &&
  all_identifier_chars (strip_final_newline s).
Proof.
  revert seen. induction s as [|c rest IH]; intros seen; cbn.
  - destruct seen; reflexivity.
  - destruct (is_identifier_char c) eqn:Hc.
    + rewrite (newline_not_identifier_char c Hc). cbn. rewrite Hc, IH. cbn.
      rewrite orb_true_r. reflexivity.
    + destruct (Ascii.eqb c newline && String.eqb rest "") eqn:Hnl; cbn.
      * apply andb_true_iff in Hnl as [-> ->]. destruct seen; reflexivity.
      * rewrite Hc. cbn. rewrite andb_false_r.
        rewrite <- andb_assoc, Hnl. apply andb_false_r.
Qed.

(** The pattern accepts exactly the strings that are a plain identifier once
    one final newline, if there is one, is taken off. *)
Lemma match_strips_final_newline s :
  ALLOWED_IDENTIFIER_match s = plain_identifier (strip_final_newline s).
Proof. unfold ALLOWED_IDENTIFIER_match. apply allowed_identifier_from_strip. Qed.

Lemma strip_plain s :
  all_identifier_chars s = true → strip_final_newline s = s.
Proof.
  induction s as [|c rest IH]; cbn; [reflexivity|].
  intros [Hc Hrest]%andb_true_iff.
  rewrite (newline_not_identifier_char c Hc). cbn. rewrite IH; auto.
Qed.

Lemma plain_identifier_accepted s :
  plain_identifier s = true → ALLOWED_IDENTIFIER_match s = true.
Proof.
  intros Hs. rewrite match_strips_final_newline.
  apply andb_true_iff in Hs as Hs'. destruct Hs' as [_ Hall].
  rewrite (strip_plain s Hall). exact Hs.
Qed.

(** The sanitizer picks the candidate when it is non-empty and the default
    otherwise, and returns the chosen value whenever it returns. *)
Lemma sanitize_identifier_chooses value default :
  let candidate := if String.eqb value "" then default else value in
  _sanitize_identifier value default =
  if ALLOWED_IDENTIFIER_match candidate then Ok candidate
  else Raise (PyExc ValueError ("Invalid identifier provided: " +:+ candidate)).
Proof.
  unfold _sanitize_identifier, truthy. cbv zeta.
  destruct (String.eqb value ""); cbn [negb];
    destruct (ALLOWED_IDENTIFIER_match _); reflexivity.
Qed.

Lemma sanitize_identifier_accepted value default chosen :
  _sanitize_identifier value default = Ok chosen →
  ALLOWED_IDENTIFIER_match chosen = true.
Proof.
  rewrite sanitize_identifier_chooses. cbv zeta.
  destruct (ALLOWED_IDENTIFIER_match _) eqn:Hm; [|discriminate].
  intros [= <-]. exact Hm.
Qed.

(** Every name a constructed repository holds went through the pattern. *)
Lemma repository_init_sanitized default_table db table sym tf ts exch self :
  repository_init default_table db table sym tf ts exch = Ok self →
  ALLOWED_IDENTIFIER_match (_table self) = true ∧
  ALLOWED_IDENTIFIER_match (_symbol_column self) = true ∧
  ALLOWED_IDENTIFIER_match (_time_frame_column self) = true ∧
  ALLOWED_IDENTIFIER_match (_timestamp_column self) = true ∧
  ∀ col, _exchange_column self = Some col → ALLOWED_IDENTIFIER_match col = true.
Proof.
  unfold repository_init.
  destruct (_sanitize_identifier table default_table) as [t|] eqn:Ht; [|discriminate].
  destruct (_sanitize_identifier sym "symbol") as [s|] eqn:Hs; [|discriminate].
  destruct (_sanitize_identifier tf "time_frame") as [f|] eqn:Hf; [|discriminate].
  destruct (_sanitize_identifier ts "timestamp") as [m|] eqn:Hm; [|discriminate].
  cbn [result_bind].
  destruct exch as [e|]; cbn [truthy];
    [destruct (negb (String.eqb e ""));
       [destruct (_sanitize_identifier e "exchange") as [x|] eqn:Hx; [|discriminate]|]|];
    cbn [result_bind]; intros [= <-]; cbn;
    repeat split; eauto using sanitize_identifier_accepted; try discriminate.
  intros col [= <-]. eauto using sanitize_identifier_accepted.
Qed.

Lemma strip_after_plain (body : string) :
  all_identifier_chars body = true → body ≠ ""%string →
  strip_final_newline (body +:+ String newline "") = body.
Proof.
  induction body as [|c rest IH]; [congruence|].
  intros [Hc Hrest]%andb_true_iff _.
  change (strip_final_newline (String c (rest +:+ String newline "")) = String c rest).
  cbn [strip_final_newline]. rewrite (newline_not_identifier_char c Hc). cbn [andb].
  destruct rest as [|c' rest']; [reflexivity|].
  rewrite IH; [reflexivity | exact Hrest | discriminate].
Qed.

(** One final newline after a plain identifier gets through the pattern. *)
Lemma final_newline_accepted (body : string) :
  plain_identifier body = true →
  ALLOWED_IDENTIFIER_match (body +:+ String newline "") = true.
Proof.
  intros Hplain. rewrite match_strips_final_newline.
  apply andb_true_iff in Hplain as Hp. destruct Hp as [Hne Hall].
  rewrite strip_after_plain; [exact Hplain | exact Hall |].
  intros ->. discriminate Hne.
Qed.

Example default_candle_repository_built (db : gateway) :
  default_candle_repository db = Ok (candle_repository db).
Proof. reflexivity. Qed.

Example default_footprint_repository_built (db : gateway) :
  default_footprint_repository db = Ok (footprint_repository db).
Proof. reflexivity. Qed.

(** C8 (code as written): a table name that ends in a newline is not made of
    [[A-Za-z0-9_]] in full, yet the sanitizer returns it and the repository
    is constructed with it: the pattern's [$] also holds before a final
    newline. *)
Theorem sanitize_identifier_final_newline (db : gateway) :
  let name := ("candles" +:+ String newline "")%string in
  plain_identifier name = false ∧
  _sanitize_identifier name "tradingview_candle_data" = Ok name ∧
  _table <$> (match CandleRepository_init db name "symbol" "time_frame" "timestamp"
                      (Some "exchange"%string) with
              | Ok self => Some self
              | Raise _ => None
              end) = Some name.
Proof. cbn. repeat split; reflexivity. Qed.

(** ** The statement builder *)

Lemma string_append_assoc (a b c : string) : (a +:+ b) +:+ c = a +:+ (b +:+ c).
Proof.
  induction a as [|x a IH]; [reflexivity|].
  change (String x ((a +:+ b) +:+ c) = String x (a +:+ (b +:+ c))).
  now rewrite IH.
Qed.

(** What [build_statement] returns on every input. *)
Lemma build_statement_eq self columns symbol tf limit ex st en :
  build_statement self (select_from self columns) symbol tf limit ex st en =
  if filter_refused self ex then Raise no_exchange_column
  else Ok (expected_sql self columns (provided ex) (provided st) (provided en),
           expected_params symbol tf limit ex st en).
Proof.
  unfold build_statement, filter_refused, expected_sql, expected_params, select_from.
  destruct ex, st, en, (exchange_column_set self);
    cbv [provided negb andb result_bind optional_param app join default id];
    try reflexivity.
  all: f_equal; f_equal; rewrite ?string_append_assoc; reflexivity.
Qed.

Lemma statement_text_independent self columns symbol tf limit ex st en
    symbol' tf' limit' ex' st' en' :
  provided ex = provided ex' → provided st = provided st' →
  provided en = provided en' →
  statement_text (build_statement self (select_from self columns) symbol tf limit ex st en) =
  statement_text (build_statement self (select_from self columns) symbol' tf' limit' ex' st' en').
Proof.
  intros Hex Hst Hen. rewrite !build_statement_eq. unfold filter_refused.
  rewrite Hex, Hst, Hen.
  destruct (provided ex' && _); reflexivity.
Qed.

Lemma statement_params_order self columns symbol tf limit ex st en q :
  build_statement self (select_from self columns) symbol tf limit ex st en = Ok q →
  snd q = [PStr symbol; PStr tf] ++ optional_param ex ++ optional_param st ++
          optional_param en ++ [PInt limit].
Proof.
  rewrite build_statement_eq. destruct (filter_refused self ex); [discriminate|].
  intros [= <-]. reflexivity.
Qed.

Lemma limit_clamped (limit : Z) :
  1 ≤ Z.max 1 (Z.min limit 1000) ≤ 1000 ∧
  (1 ≤ limit ≤ 1000 → Z.max 1 (Z.min limit 1000) = limit) ∧
  (limit ≤ 1 → Z.max 1 (Z.min limit 1000) = 1) ∧
  (1000 ≤ limit → Z.max 1 (Z.min limit 1000) = 1000).
Proof. lia. Qed.

(** ** The fetch methods past the normalizer

    What the body of each fetch method does from the statement on, for any
    normalized time frame it is given. *)

Section FetchFacts.
Context `{PyRuntime}.
Implicit Types (self : Repository) (rows : list row) (sent : list query).

Ltac run_refused :=
  intros Href; unfold run_candles, run_volume_footprints, run_cvd, run_ema,
    candles_statement, volume_footprints_statement, cvd_statement, ema_statement,
    io_bind, io_lift;
  rewrite build_statement_eq, Href; reflexivity.

Ltac run_sent :=
  intros Href Hdb; unfold run_candles, run_volume_footprints, run_cvd, run_ema,
    candles_statement, volume_footprints_statement, cvd_statement, ema_statement,
    io_bind, io_lift, fetch_all, io_ret;
  rewrite build_statement_eq, Href; cbn [fst snd]; rewrite Hdb; reflexivity.

(** A refused exchange filter raises before anything is sent. *)
Lemma run_candles_refused self symbol tf limit ex st en sent :
  filter_refused self ex = true →
  run_candles self symbol tf limit ex st en sent = (Raise no_exchange_column, sent).
Proof. run_refused. Qed.

Lemma run_volume_footprints_refused self symbol tf limit ex st en sent :
  filter_refused self ex = true →
  run_volume_footprints self symbol tf limit ex st en sent = (Raise no_exchange_column, sent).
Proof. run_refused. Qed.

Lemma run_cvd_refused self symbol tf limit ex st en sent :
  filter_refused self ex = true →
  run_cvd self symbol tf limit ex st en sent = (Raise no_exchange_column, sent).
Proof. run_refused. Qed.

Lemma run_ema_refused self symbol tf limit ex st en sent :
  filter_refused self ex = true →
  run_ema self symbol tf limit ex st en sent = (Raise no_exchange_column, sent).
Proof. run_refused. Qed.

(** Otherwise exactly one statement is sent, and the rows come back
    reversed and serialized. *)
Lemma run_candles_reversed self symbol tf limit ex st en sent rows :
  let sql := expected_sql self (candle_select_list self)
               (provided ex) (provided st) (provided en) in
  let params := expected_params symbol tf limit ex st en in
  filter_refused self ex = false →
  _db self sql params = Ok rows →
  run_candles self symbol tf limit ex st en sent =
    (Ok (_serialize_row <$> reverse rows), sent ++ [(sql, params)]).
Proof. cbv zeta. run_sent. Qed.

Lemma run_cvd_reversed self symbol tf limit ex st en sent rows :
  let sql := expected_sql self (join ", " (cvd_select_columns self))
               (provided ex) (provided st) (provided en) in
  let params := expected_params symbol tf limit ex st en in
  filter_refused self ex = false →
  _db self sql params = Ok rows →
  run_cvd self symbol tf limit ex st en sent =
    (Ok (_serialize_row <$> reverse rows), sent ++ [(sql, params)]).
Proof. cbv zeta. run_sent. Qed.

Lemma run_ema_reversed self symbol tf limit ex st en sent rows :
  let sql := expected_sql self (join ", " (ema_select_columns self))
               (provided ex) (provided st) (provided en) in
  let params := expected_params symbol tf limit ex st en in
  filter_refused self ex = false →
  _db self sql params = Ok rows →
  run_ema self symbol tf limit ex st en sent =
    (Ok (_serialize_row <$> reverse rows), sent ++ [(sql, params)]).
Proof. cbv zeta. run_sent. Qed.

Lemma run_volume_footprints_reversed self symbol tf limit ex st en sent rows :
  let sql := expected_sql self (join ", " (footprint_select_columns self))
               (provided ex) (provided st) (provided en) in
  let params := expected_params symbol tf limit ex st en in
  filter_refused self ex = false →
  _db self sql params = Ok rows →
  run_volume_footprints self symbol tf limit ex st en sent =
    (for_each footprint_row (reverse rows), sent ++ [(sql, params)]).
Proof. cbv zeta. run_sent. Qed.

(** Reversal turns the position from the newest row into the position from
    the oldest, and keeps the number of rows. *)
Lemma reversed_rows_lookup rows (i : nat) :
  (i < length rows)%nat →
  (_serialize_row <$> reverse rows) !! i =
    _serialize_row <$> rows !! (length rows - S i)%nat.
Proof.
  intros Hi. rewrite list_lookup_fmap, reverse_lookup by exact Hi. reflexivity.
Qed.

Lemma reversed_rows_length rows :
  length (_serialize_row <$> reverse rows) = length rows.
Proof. now rewrite length_fmap, length_reverse. Qed.

(** Every fetch method stops at the normalizer. *)
Lemma fetch_candles_stops self symbol tf limit ex st en sent :
  fetch_candles self symbol tf limit ex st en sent = (Raise unbound_vahalue, sent).
Proof. reflexivity. Qed.

Lemma fetch_volume_footprints_stops self symbol tf limit ex st en sent :
  fetch_volume_footprints self symbol tf limit ex st en sent = (Raise unbound_vahalue, sent).
Proof. reflexivity. Qed.

Lemma fetch_cvd_stops self symbol tf limit ex st en sent :
  fetch_cvd self symbol tf limit ex st en sent = (Raise unbound_vahalue, sent).
Proof. reflexivity. Qed.

Lemma fetch_ema_stops self symbol tf limit ex st en sent :
  fetch_ema self symbol tf limit ex st en sent = (Raise unbound_vahalue, sent).
Proof. reflexivity. Qed.

End FetchFacts.

(** ** The SELECT lists *)

Lemma elem_of_select_columns (x : string) (before middle after : list string) :
  x ∈ after → x ∈ before ++ middle ++ after.
Proof. intros Hx. rewrite !elem_of_app. auto. Qed.

(** The statement that the body of [fetch_candles] builds has the column
    list [time_frame, symbol, <timestamp column>, open, high, low, close,
    volume] whatever the configuration: of the configured column names only
    the timestamp column occurs in it, the symbol and time-frame columns
    occur in the WHERE clause alone, whereas the column lists of the other
    three repositories alias the configured symbol, time-frame and timestamp
    columns. *)
Lemma candle_select_list_fixed (self : Repository) (symbol tf : string) (limit : Z)
    (ex st en : option string) :
  candles_statement self symbol tf limit ex st en =
    (if filter_refused self ex then Raise no_exchange_column
     else Ok (expected_sql self
                ("time_frame, symbol, " +:+ _timestamp_column self +:+
                 ", open, high, low, close, volume")
                (provided ex) (provided st) (provided en),
              expected_params symbol tf limit ex st en)) ∧
  (∀ db table sc tfc exc,
     candle_select_list {| _db := db; _table := table; _symbol_column := sc;
                           _time_frame_column := tfc;
                           _timestamp_column := _timestamp_column self;
                           _exchange_column := exc |} = candle_select_list self) ∧
  ((_symbol_column self +:+ " AS symbol") ∈ footprint_select_columns self ∧
   (_time_frame_column self +:+ " AS time_frame") ∈ footprint_select_columns self ∧
   (_timestamp_column self +:+ " AS timestamp") ∈ footprint_select_columns self) ∧
  ((_symbol_column self +:+ " AS symbol") ∈ cvd_select_columns self ∧
   (_time_frame_column self +:+ " AS time_frame") ∈ cvd_select_columns self ∧
   (_timestamp_column self +:+ " AS timestamp") ∈ cvd_select_columns self) ∧
  ((_symbol_column self +:+ " AS symbol") ∈ ema_select_columns self ∧
   (_time_frame_column self +:+ " AS time_frame") ∈ ema_select_columns self ∧
   (_timestamp_column self +:+ " AS timestamp") ∈ ema_select_columns self).
Proof.
  split; [apply build_statement_eq|].
  split; [reflexivity|].
  unfold footprint_select_columns, cvd_select_columns, ema_select_columns.
  repeat split;
    first [ apply elem_of_select_columns; set_solver
          | rewrite !elem_of_app; left; set_solver ].
Qed.

(** The statement of the default candle repository and the one of a
    repository with renamed symbol and time-frame columns: the same column
    list, different WHERE clauses. *)
Example candle_statement_renamed :
  statement_text (candles_statement renamed_candle_repository "X" "1D" 10 None None None) =
  Ok ("SELECT time_frame, symbol, timestamp, open, high, low, close, volume " +:+
      "FROM tradingview_candle_data WHERE ticker = %s AND resolution = %s " +:+
      "ORDER BY timestamp DESC LIMIT %s")%string.
Proof. reflexivity. Qed.

(** ** The volume-footprint [levels] field *)

Section LevelsFacts.
Context `{PyRuntime}.

Lemma decode_levels_eq (v : pyval) (serialized : row) :
  decode_levels (v, serialized) =
  Ok match v with
     | PBytes bs | PByteArray bs =>
         match bytes_decode_utf8 bs with
         | Ok s => (PStr s, <["levels"%string := PStr s]> serialized)
         | Raise _ => (v, serialized)
         end
     | _ => (v, serialized)
     end.
Proof.
  unfold decode_levels, try_except.
  destruct v; try reflexivity;
    (destruct (bytes_decode_utf8 bs) as [s|e] eqn:Hd; cbn [result_bind];
     [reflexivity | now rewrite (decode_raises _ _ Hd)]).
Qed.

Lemma parse_levels_eq (v : pyval) (serialized : row) :
  parse_levels (v, serialized) =
  Ok match v with
     | PStr s =>
         match json_loads s with
         | Ok parsed => (v, <["levels"%string := parsed]> serialized)
         | Raise _ => (v, serialized)
         end
     | _ => (v, serialized)
     end.
Proof.
  unfold parse_levels, try_except.
  destruct v; try reflexivity.
  destruct (json_loads s) as [parsed|e] eqn:Hj; cbn [result_bind];
    [reflexivity | now rewrite (json_loads_raises _ _ Hj)].
Qed.

Lemma footprint_row_eq (r : row) :
  footprint_row r =
  Ok match _serialize_row r !! "levels"%string with
     | Some v => <["levels"%string := levels_outcome v]> (_serialize_row r)
     | None => _serialize_row r
     end.
Proof.
  unfold footprint_row, dict_get.
  rewrite decode_levels_eq. cbn [result_bind].
  destruct (_serialize_row r !! "levels"%string) as [v|] eqn:Hv;
    cbn [default from_option]; unfold id.
  2: { rewrite parse_levels_eq. reflexivity. }
  assert (Hid : <["levels"%string := v]> (_serialize_row r) = _serialize_row r)
    by (now apply insert_id).
  unfold levels_outcome, levels_text.
  destruct v; try (rewrite parse_levels_eq; cbn [snd]; now rewrite Hid).
  - rewrite parse_levels_eq.
    destruct (json_loads s); cbn [snd]; [reflexivity | now rewrite Hid].
  - destruct (bytes_decode_utf8 bs) as [s|]; rewrite parse_levels_eq.
    + destruct (json_loads s); cbn [snd]; [now rewrite insert_insert_eq | reflexivity].
    + cbn [snd]. now rewrite Hid.
  - destruct (bytes_decode_utf8 bs) as [s|]; rewrite parse_levels_eq.
    + destruct (json_loads s); cbn [snd]; [now rewrite insert_insert_eq | reflexivity].
    + cbn [snd]. now rewrite Hid.
Qed.

End LevelsFacts.

(** The loop body of [fetch_volume_footprints] never raises. Bytes are
    decoded as UTF-8 and stay bytes when that fails; text, decoded or
    original, is replaced by the parsed structure when it is JSON and kept
    as it is when it is not; no other field of the serialized row changes.
    A row whose [levels] is a JSON text comes out with the parsed value, one
    whose [levels] is not JSON with the same text. *)
Lemma footprint_row_levels (R : PyRuntime) :
  (∀ r : row, ∃ out : row,
     footprint_row r = Ok out ∧
     out !! "levels"%string = levels_outcome <$> (_serialize_row r !! "levels"%string) ∧
     ∀ k : string, k ≠ "levels"%string → out !! k = _serialize_row r !! k) ∧
  (∀ bs e, bytes_decode_utf8 bs = Raise e → levels_outcome (PBytes bs) = PBytes bs) ∧
  (∀ s parsed, json_loads s = Ok parsed →
     footprint_row {["levels"%string := PStr s]} = Ok {["levels"%string := parsed]}) ∧
  (∀ s e, json_loads s = Raise e →
     footprint_row {["levels"%string := PStr s]} = Ok {["levels"%string := PStr s]}).
Proof.
  repeat split.
  - intros r. rewrite footprint_row_eq.
    destruct (_serialize_row r !! "levels"%string) as [v|] eqn:Hv; eexists;
      (split; [reflexivity|]); split.
    + now rewrite lookup_insert_eq.
    + intros k Hk. now rewrite lookup_insert_ne.
    + exact Hv.
    + reflexivity.
  - intros bs e Hd. unfold levels_outcome, levels_text. now rewrite Hd.
  - intros s parsed Hj. rewrite footprint_row_eq.
    unfold _serialize_row. rewrite map_fmap_singleton. cbn [serialize_value].
    rewrite lookup_singleton_eq, insert_singleton_eq.
    unfold levels_outcome, levels_text. now rewrite Hj.
  - intros s e Hj. rewrite footprint_row_eq.
    unfold _serialize_row. rewrite map_fmap_singleton. cbn [serialize_value].
    rewrite lookup_singleton_eq, insert_singleton_eq.
    unfold levels_outcome, levels_text. now rewrite Hj.
Qed.

(** The two rows of the documentation on the sample runtime: the JSON text
    of an object with the member [a] comes back as that object, and the text
    [not json] comes back unchanged. *)
Example footprint_row_levels_sample :
  @footprint_row SampleRuntime.runtime {["levels"%string := PStr SampleRuntime.json_a1]} =
    Ok {["levels"%string := PDict [("a"%string, PInt 1)]]} ∧
  @footprint_row SampleRuntime.runtime {["levels"%string := PStr "not json"]} =
    Ok {["levels"%string := PStr "not json"]}.
Proof.
  destruct (footprint_row_levels SampleRuntime.runtime) as (_ & _ & Hjson & Htext).
  split.
  - apply Hjson. reflexivity.
  - apply (Htext _ (PyExc JSONDecodeError "Expecting value")). reflexivity.
Qed.

(** ** The fetch methods as written

    What a call of each fetch method does, set next to what the body of the
    method does past the normalizer. *)

(** C3 (code as written): no fetch method returns rows. On every
    repository and for all arguments each of the four raises [NameError] at
    the normalizer, before a statement is built or sent, so there is no row
    sequence to reverse. *)
Theorem fetch_returns_no_rows (R : PyRuntime) (self : Repository)
    (symbol tf : string) (limit : Z) (ex st en : option string) (sent : list query) :
  fetch_candles self symbol tf limit ex st en sent = (Raise unbound_vahalue, sent) ∧
  fetch_volume_footprints self symbol tf limit ex st en sent = (Raise unbound_vahalue, sent) ∧
  fetch_cvd self symbol tf limit ex st en sent = (Raise unbound_vahalue, sent) ∧
  fetch_ema self symbol tf limit ex st en sent = (Raise unbound_vahalue, sent).
Proof. repeat split; reflexivity. Qed.

(** The three most recent candles of the documentation's example: the body
    serves them oldest first, the call serves nothing. *)
Example fetch_candles_recent_three :
  fst (@run_candles SampleRuntime.runtime (candle_repository candle_gateway)
         "BANKNIFTY1!" "30m" 3 None None None []) =
    Ok [served_candle "15" 101; served_candle "30" 102; served_candle "45" 103] ∧
  @fetch_candles SampleRuntime.runtime (candle_repository candle_gateway)
    "BANKNIFTY1!" "30" 3 None None None [] = (Raise unbound_vahalue, []).
Proof. split; reflexivity. Qed.

(** C2 (code as written): on a repository without an exchange column, a
    fetch that names an exchange does not fail with the invalid-filter
    [ValueError]: it fails earlier, with the [NameError] of the normalizer,
    which is no [ValueError]. Nothing is sent either way. *)
Theorem fetch_exchange_filter_name_error (R : PyRuntime) (db : gateway)
    (table sc tfc tsc symbol tf exchange : string) (limit : Z)
    (st en : option string) (sent : list query) :
  let self := {| _db := db; _table := table; _symbol_column := sc;
                 _time_frame_column := tfc; _timestamp_column := tsc;
                 _exchange_column := None |} in
  run_volume_footprints self symbol tf limit (Some exchange) st en sent =
    (Raise no_exchange_column, sent) ∧
  fetch_candles self symbol tf limit (Some exchange) st en sent = (Raise unbound_vahalue, sent) ∧
  fetch_volume_footprints self symbol tf limit (Some exchange) st en sent = (Raise unbound_vahalue, sent) ∧
  fetch_cvd self symbol tf limit (Some exchange) st en sent = (Raise unbound_vahalue, sent) ∧
  fetch_ema self symbol tf limit (Some exchange) st en sent = (Raise unbound_vahalue, sent) ∧
  is_subclass (exc_class_of unbound_vahalue) ValueError = false.
Proof.
  cbv zeta. split; [now apply run_volume_footprints_refused|].
  repeat split; reflexivity.
Qed.

(** C5 (code as written): two stored footprint rows, one with [levels] that
    is no JSON and one with the JSON text of an object. The body of
    [fetch_volume_footprints] would serve them with the text kept and the
    object parsed; the call raises before the rows are read. *)
Theorem fetch_volume_footprints_reads_no_levels :
  fst (@run_volume_footprints SampleRuntime.runtime
         (footprint_repository footprint_gateway) "NIFTY" "1D" 10 None None None []) =
    Ok [ {[ "levels"%string := PDict [("a"%string, PInt 1)] ]};
         {[ "levels"%string := PStr "not json" ]} ] ∧
  @fetch_volume_footprints SampleRuntime.runtime
    (footprint_repository footprint_gateway) "NIFTY" "1D" 10 None None None [] =
    (Raise unbound_vahalue, []).
Proof. split; reflexivity. Qed.

(** C6 (code as written): a fetch hands the gateway no statement and no
    parameter list: whatever the arguments, the list of statements sent
    stays empty. *)
Theorem fetch_sends_no_statement (R : PyRuntime) (self : Repository)
    (symbol tf : string) (limit : Z) (ex st en : option string) :
  snd (fetch_candles self symbol tf limit ex st en []) = [] ∧
  snd (fetch_volume_footprints self symbol tf limit ex st en []) = [] ∧
  snd (fetch_cvd self symbol tf limit ex st en []) = [] ∧
  snd (fetch_ema self symbol tf limit ex st en []) = [].
Proof. repeat split; reflexivity. Qed.

(** Two calls of the body with the same optional arguments: one statement
    text, the values in the parameter lists only. *)
Example run_candles_binds_values :
  snd (@run_candles SampleRuntime.runtime (candle_repository candle_gateway)
         "NIFTY" "5m" 20 (Some "NSE"%string) None None []) =
    [ ("SELECT time_frame, symbol, timestamp, open, high, low, close, volume " +:+
       "FROM tradingview_candle_data WHERE symbol = %s AND time_frame = %s " +:+
       "AND exchange = %s ORDER BY timestamp DESC LIMIT %s",
       [PStr "NIFTY"; PStr "5m"; PStr "NSE"; PInt 20]) ]%string ∧
  snd (@run_candles SampleRuntime.runtime (candle_repository candle_gateway)
         "x' OR 1=1 --" "1D" 7 (Some "BSE"%string) None None []) =
    [ ("SELECT time_frame, symbol, timestamp, open, high, low, close, volume " +:+
       "FROM tradingview_candle_data WHERE symbol = %s AND time_frame = %s " +:+
       "AND exchange = %s ORDER BY timestamp DESC LIMIT %s",
       [PStr "x' OR 1=1 --"; PStr "1D"; PStr "BSE"; PInt 7]) ]%string.
Proof. split; reflexivity. Qed.

(** C7 (code as written): with [limit=0] and with [limit=5000] the clamped
    value is computed and then dropped: the call raises at the normalizer
    and binds no [LIMIT] parameter. *)
Theorem fetch_binds_no_limit (R : PyRuntime) (self : Repository)
    (symbol tf : string) (ex st en : option string) (sent : list query) :
  Z.max 1 (Z.min 0 1000) = 1 ∧ Z.max 1 (Z.min 5000 1000) = 1000 ∧
  fetch_candles self symbol tf 0 ex st en sent = (Raise unbound_vahalue, sent) ∧
  fetch_candles self symbol tf 5000 ex st en sent = (Raise unbound_vahalue, sent).
Proof. repeat split; reflexivity. Qed.

(** C10 (code as written): whatever the configuration, [fetch_candles]
    raises at the normalizer and builds no statement, so no SELECT list
    exists at run time. *)
Theorem fetch_candles_builds_no_statement (R : PyRuntime) (self : Repository)
    (symbol tf : string) (limit : Z) (ex st en : option string) :
  fst (fetch_candles self symbol tf limit ex st en []) = Raise unbound_vahalue ∧
  snd (fetch_candles self symbol tf limit ex st en []) = [].
Proof. split; reflexivity. Qed.

(** ** The response envelope *)

Section EnvelopeFacts.
Context `{PyRuntime}.

Lemma format_timestamp_text (s : string) :
  _format_timestamp (PStr s) = Ok (display_timestamp s).
Proof.
  unfold _format_timestamp, display_timestamp, truthy.
  destruct (String.eqb s ""); cbn [negb]; [reflexivity|].
  destruct (datetime_fromisoformat s) as [d|e] eqn:Hp; [reflexivity|].
  now rewrite (fromisoformat_raises _ _ Hp).
Qed.

Lemma format_timestamp_bound (r : row) :
  text_timestamp r = true →
  _format_timestamp <$> r !! "timestamp"%string =
  Some (Ok (bound_of (dict_get r "timestamp"))).
Proof.
  unfold text_timestamp, dict_get.
  destruct (r !! "timestamp"%string) as [[]|]; try discriminate; intros _; cbn.
  - reflexivity.
  - now rewrite format_timestamp_text.
Qed.

(** The envelope of a row list whose first and last rows carry a text or
    null timestamp. *)
Lemma format_response_eq (key : string) (rows out : list row) (r0 rn : row) :
  head rows = Some r0 → last rows = Some rn →
  text_timestamp r0 = true → text_timestamp rn = true →
  format_response key rows out =
  Ok {| start_timestamp := bound_of (dict_get r0 "timestamp");
        end_timestamp := bound_of (dict_get rn "timestamp");
        count := length rows; entity_key := key; entity_rows := out |}.
Proof.
  intros Hhead Hlast H0 Hn.
  pose proof (format_timestamp_bound r0 H0) as B0.
  pose proof (format_timestamp_bound rn Hn) as Bn.
  unfold format_response, first_timestamp, last_timestamp, dict_getitem.
  rewrite Hlast. destruct rows as [|r rows']; [discriminate|].
  injection Hhead as ->.
  unfold text_timestamp, dict_get in *.
  destruct (r0 !! "timestamp"%string) as [v0|]; [|discriminate].
  destruct (rn !! "timestamp"%string) as [vn|]; [|discriminate].
  cbn [fmap option_fmap option_map default from_option id] in B0, Bn.
  injection B0 as B0. injection Bn as Bn.
  cbn [result_bind]. rewrite B0. cbn [result_bind]. rewrite Bn. reflexivity.
Qed.

Lemma format_response_nil (key : string) (out : list row) :
  format_response key [] out =
  Ok {| start_timestamp := PNone; end_timestamp := PNone; count := 0;
        entity_key := key; entity_rows := out |}.
Proof. reflexivity. Qed.

(** The rows of the EMA envelope. *)
Lemma ema_row_duplicate (r : row) (k : string) :
  k ∈ ema_source_keys → ema_row r !! ("_" +:+ k) = Some (dict_get r k).
Proof.
  unfold ema_source_keys, ema_row. rewrite !elem_of_cons, elem_of_nil.
  intros [->|[->|[->|[->|[]]]]]; cbn [String.append];
    now repeat first [ rewrite lookup_insert_eq | rewrite lookup_insert_ne by discriminate ].
Qed.

Lemma ema_row_other (r : row) (k : string) :
  k ∉ ema_duplicate_keys → ema_row r !! k = r !! k.
Proof.
  intros Hk. unfold ema_row.
  rewrite !lookup_insert_ne; [reflexivity|..]; intros <-; apply Hk;
    unfold ema_duplicate_keys; rewrite !elem_of_cons; auto 6.
Qed.

Lemma ema_source_not_duplicate (k : string) :
  k ∈ ema_source_keys → k ∉ ema_duplicate_keys.
Proof.
  unfold ema_source_keys, ema_duplicate_keys. rewrite !elem_of_cons, elem_of_nil.
  intros [->|[->|[->|[->|[]]]]] [Hc|[Hc|[Hc|[Hc|[]]]]]; discriminate Hc.
Qed.

End EnvelopeFacts.

(** C4, as the code has it: the envelope of an empty row list has count 0
    and null bounds; for a row list whose first and last rows carry a text
    timestamp, the count is the number of rows and each bound is that
    timestamp shown by [display_timestamp]: null when the text is empty,
    the [YYYY-MM-DD HH:MM:SS] form when it parses as ISO-8601, and the text
    itself when it does not. *)
Theorem format_candle_response_bounds (R : PyRuntime) :
  format_candle_response [] =
    Ok {| start_timestamp := PNone; end_timestamp := PNone; count := 0;
          entity_key := "candles"; entity_rows := [] |} ∧
  ∀ (rows : list row) (r0 rn : row) (s0 sn : string),
    head rows = Some r0 → last rows = Some rn →
    r0 !! "timestamp"%string = Some (PStr s0) →
    rn !! "timestamp"%string = Some (PStr sn) →
    format_candle_response rows =
      Ok {| start_timestamp := display_timestamp s0;
            end_timestamp := display_timestamp sn;
            count := length rows; entity_key := "candles"; entity_rows := rows |}.
Proof.
  split; [reflexivity|].
  intros rows r0 rn s0 sn Hhead Hlast H0 Hn.
  unfold format_candle_response.
  rewrite (format_response_eq "candles" rows rows r0 rn Hhead Hlast).
  - unfold dict_get. now rewrite H0, Hn.
  - unfold text_timestamp. now rewrite H0.
  - unfold text_timestamp. now rewrite Hn.
Qed.

(** Two candles on the sample runtime: the first timestamp is reformatted,
    the second, which is no ISO-8601 text, is passed through. *)
Lemma format_candle_response_bounds_witness :
  @format_candle_response SampleRuntime.runtime
    [candle_at "2024-01-05T09:15:00"; candle_at "not a date"] =
  Ok {| start_timestamp := PStr "2024-01-05 09:15:00";
        end_timestamp := PStr "not a date";
        count := 2; entity_key := "candles";
        entity_rows := [candle_at "2024-01-05T09:15:00"; candle_at "not a date"] |}.
Proof.
  rewrite (proj2 (format_candle_response_bounds SampleRuntime.runtime)
             [candle_at "2024-01-05T09:15:00"; candle_at "not a date"]
             (candle_at "2024-01-05T09:15:00") (candle_at "not a date")
             "2024-01-05T09:15:00" "not a date");
    reflexivity.
Defined.

(** C4 (counterexample): one candle whose timestamp is the empty text. The
    text does not parse, yet the bounds are null and not the text, although
    the row list is not empty. *)
Lemma format_candle_response_empty_text :
  @datetime_fromisoformat SampleRuntime.runtime "" =
    Raise (PyExc ValueError "Invalid isoformat string: ''") ∧
  @format_candle_response SampleRuntime.runtime [candle_at ""] =
    Ok {| start_timestamp := PNone; end_timestamp := PNone; count := 1;
          entity_key := "candles"; entity_rows := [candle_at ""] |}.
Proof. split; reflexivity. Qed.

(** The same on every runtime: an empty timestamp is shown as null before
    any parsing is tried. *)
Lemma format_timestamp_empty_text (R : PyRuntime) :
  _format_timestamp (PStr "") = Ok PNone.
Proof. reflexivity. Qed.

(** C9: for a row list whose first and last rows carry a text or null
    timestamp the EMA envelope is built, it holds one row per input row in
    the same order, and each output row keeps every field of its input row,
    the four numeric-prefixed keys included, and binds each
    underscore-prefixed duplicate to the value of its original. *)
Theorem format_ema_response_rows (R : PyRuntime) (rows : list row) :
  (∀ r, head rows = Some r ∨ last rows = Some r → text_timestamp r = true) →
  ∃ env : envelope,
    format_ema_response rows = Ok env ∧
    count env = length rows ∧
    length (entity_rows env) = length rows ∧
    ∀ (i : nat) (r : row), rows !! i = Some r →
      ∃ out : row,
        entity_rows env !! i = Some out ∧
        (∀ k, k ∈ ema_source_keys → out !! ("_" +:+ k) = Some (dict_get r k)) ∧
        (∀ k v, k ∈ ema_source_keys → r !! k = Some v →
           out !! k = Some v ∧ out !! ("_" +:+ k) = Some v) ∧
        (∀ k, k ∉ ema_duplicate_keys → out !! k = r !! k).
Proof.
  intros Hrows.
  assert (∃ s e, format_ema_response rows =
            Ok {| start_timestamp := s; end_timestamp := e; count := length rows;
                  entity_key := "ema"; entity_rows := ema_row <$> rows |})
    as (s & e & Henv).
  { unfold format_ema_response.
    destruct (head rows) as [r0|] eqn:Hhead.
    - destruct (last rows) as [rn|] eqn:Hlast.
      + do 2 eexists. apply (format_response_eq _ _ _ r0 rn); auto.
      + apply last_None in Hlast. subst rows. discriminate.
    - apply head_None in Hhead. subst rows. do 2 eexists. apply format_response_nil. }
  eexists. split; [exact Henv|]. cbn [count entity_rows].
  split; [reflexivity|]. split; [apply length_fmap|].
  intros i r Hi. exists (ema_row r). split.
  { now rewrite list_lookup_fmap, Hi. }
  split; [intros k Hk; now apply ema_row_duplicate|].
  split; [|apply ema_row_other].
  intros k v Hk Hv. split.
  - rewrite ema_row_other by now apply ema_source_not_duplicate. exact Hv.
  - rewrite ema_row_duplicate by exact Hk. unfold dict_get. now rewrite Hv.
Qed.

(** One EMA row on the sample runtime. *)
Lemma format_ema_response_rows_witness :
  ∃ env : envelope,
    @format_ema_response SampleRuntime.runtime [sample_ema_row] = Ok env ∧
    ∃ out : row,
      entity_rows env !! 0%nat = Some out ∧
      out !! "20_ema"%string = Some (PInt 20) ∧
      out !! "_20_ema"%string = Some (PInt 20) ∧
      out !! "symbol"%string = Some (PStr "BANKNIFTY1!").
Proof.
  destruct (format_ema_response_rows SampleRuntime.runtime [sample_ema_row])
    as (env & Henv & _ & _ & Hrow).
  { intros r [[= <-]|[= <-]]; reflexivity. }
  exists env. split; [exact Henv|].
  destruct (Hrow 0%nat sample_ema_row eq_refl) as (out & Hout & _ & Hkeep & Hother).
  exists out. split; [exact Hout|].
  destruct (Hkeep "20_ema"%string (PInt 20)) as [H20 H20'].
  { unfold ema_source_keys. rewrite !elem_of_cons. auto. }
  { reflexivity. }
  split; [exact H20|]. split; [exact H20'|].
  rewrite Hother.
  - reflexivity.
  - unfold ema_duplicate_keys. rewrite !elem_of_cons, elem_of_nil.
    intros [Hc|[Hc|[Hc|[Hc|[]]]]]; discriminate Hc.
Defined.

(** * Properties of the remaining code *)

(** ** The sanitizer and the constructors *)

(** X1: the sanitizer returns a name exactly when that name is the
    candidate, or the default for an empty candidate, and is a plain
    identifier once one final newline is taken off. *)
Theorem sanitize_identifier_accepts_exactly (value default c : string) :
  _sanitize_identifier value default = Ok c ↔
  c = chosen value default ∧ plain_identifier (strip_final_newline c) = true.
Proof.
  rewrite sanitize_identifier_chooses. cbv zeta. fold (chosen value default).
  rewrite match_strips_final_newline.
  destruct (plain_identifier (strip_final_newline (chosen value default))) eqn:Hp.
  - split; [intros [= <-]; auto | intros [-> _]; reflexivity].
  - split; [discriminate | intros [-> Hc]; congruence].
Qed.

(** X2: a name the sanitizer has returned passes the sanitizer again
    unchanged, whatever the default. *)
Theorem sanitize_identifier_stable (value default c : string) :
  _sanitize_identifier value default = Ok c →
  ∀ other_default, _sanitize_identifier c other_default = Ok c.
Proof.
  intros Hc other. apply sanitize_identifier_accepted in Hc.
  rewrite sanitize_identifier_chooses. cbv zeta.
  destruct c as [|a rest]; [discriminate Hc|].
  cbn [String.eqb]. now rewrite Hc.
Qed.

Lemma sanitize_identifier_stable_witness :
  _sanitize_identifier "symbol" "exchange" = Ok "symbol"%string.
Proof. apply (sanitize_identifier_stable "" "symbol" "symbol"). reflexivity. Defined.

(** What a constructor returns. *)
Lemma repository_init_eq dt db t s f m exch :
  (names_accepted dt t s f m exch = true →
   repository_init dt db t s f m exch =
     Ok {| _db := db; _table := chosen t dt; _symbol_column := chosen s "symbol";
           _time_frame_column := chosen f "time_frame";
           _timestamp_column := chosen m "timestamp";
           _exchange_column := exchange_choice exch |}) ∧
  (names_accepted dt t s f m exch = false →
   ∃ name, repository_init dt db t s f m exch =
     Raise (PyExc ValueError ("Invalid identifier provided: " +:+ name))).
Proof.
  unfold repository_init, names_accepted, exchange_choice, accepted_option.
  rewrite !sanitize_identifier_chooses. cbv zeta.
  fold (chosen t dt) (chosen s "symbol") (chosen f "time_frame") (chosen m "timestamp").
  destruct (ALLOWED_IDENTIFIER_match (chosen t dt));
    cbn [andb result_bind]; [|split; [discriminate | eauto]].
  destruct (ALLOWED_IDENTIFIER_match (chosen s "symbol"));
    cbn [andb result_bind]; [|split; [discriminate | eauto]].
  destruct (ALLOWED_IDENTIFIER_match (chosen f "time_frame"));
    cbn [andb result_bind]; [|split; [discriminate | eauto]].
  destruct (ALLOWED_IDENTIFIER_match (chosen m "timestamp"));
    cbn [andb result_bind]; [|split; [discriminate | eauto]].
  destruct exch as [e|]; cbn [truthy]; [|split; [reflexivity | discriminate]].
  destruct (String.eqb e "") eqn:He; cbn [negb result_bind];
    [split; [reflexivity | discriminate]|].
  rewrite sanitize_identifier_chooses. cbv zeta. rewrite He.
  destruct (ALLOWED_IDENTIFIER_match e); cbn [result_bind];
    split; first [reflexivity | discriminate | eauto].
Qed.

(** X3: a constructor returns a repository exactly when every name it is
    given passes the pattern once the defaults are filled in; the
    repository then holds those names, and no exchange column when it was
    given none or the empty text. *)
Theorem repository_init_succeeds_iff dt db t s f m exch self :
  repository_init dt db t s f m exch = Ok self ↔
  names_accepted dt t s f m exch = true ∧
  self = {| _db := db; _table := chosen t dt; _symbol_column := chosen s "symbol";
            _time_frame_column := chosen f "time_frame";
            _timestamp_column := chosen m "timestamp";
            _exchange_column := exchange_choice exch |}.
Proof.
  destruct (repository_init_eq dt db t s f m exch) as [Hyes Hno].
  destruct (names_accepted dt t s f m exch).
  - rewrite (Hyes eq_refl). split; [intros [= <-]; auto | intros [_ ->]; reflexivity].
  - destruct (Hno eq_refl) as [name ->]. split; [discriminate | intros [[=] _]].
Qed.

(** X4: on a constructed repository, a fetch body that is given an exchange
    refuses it exactly when the constructor was given no exchange column or
    the empty text. *)
Theorem constructed_exchange_filter dt db t s f m exch self (exchange : string) :
  repository_init dt db t s f m exch = Ok self →
  filter_refused self (Some exchange) = negb (provided (exchange_choice exch)).
Proof.
  intros Hself.
  destruct (repository_init_eq dt db t s f m exch) as [Hyes Hno].
  destruct (names_accepted dt t s f m exch).
  2: { destruct (Hno eq_refl) as [name Hr]. congruence. }
  rewrite (Hyes eq_refl) in Hself. injection Hself as <-.
  unfold filter_refused, exchange_column_set, exchange_choice. cbn.
  destruct exch as [e|]; [|reflexivity].
  destruct (String.eqb e "") eqn:He; [reflexivity|].
  cbn. now rewrite He.
Qed.

Lemma constructed_exchange_filter_witness :
  filter_refused (footprint_repository empty_gateway) (Some "NSE"%string) = true ∧
  filter_refused (candle_repository empty_gateway) (Some "NSE"%string) = false.
Proof.
  split.
  - apply (constructed_exchange_filter "tradingview_volume_footprint" empty_gateway
             "" "" "" "" (Some ""%string)). reflexivity.
  - apply (constructed_exchange_filter "tradingview_candle_data" empty_gateway
             "" "" "" "" (Some "exchange"%string)). reflexivity.
Defined.

(** ** [from_env] *)

Lemma repository_init_exchange dt db t s f m exch self :
  repository_init dt db t s f m exch = Ok self →
  _exchange_column self = exchange_choice exch.
Proof.
  intros Hself.
  destruct (repository_init_eq dt db t s f m exch) as [Hyes Hno].
  destruct (names_accepted dt t s f m exch).
  - rewrite (Hyes eq_refl) in Hself. now injection Hself as <-.
  - destruct (Hno eq_refl) as [name Hr]. congruence.
Qed.

Lemma exchange_choice_default (env : environ) (var : string) :
  exchange_choice (Some (getenv_default env var "exchange")) = None ↔
  env !! var = Some ""%string.
Proof.
  unfold exchange_choice, getenv_default.
  destruct (env !! var) as [v|]; cbn.
  - destruct (String.eqb_spec v ""); split; congruence.
  - split; discriminate.
Qed.

(** X5: a repository built from the environment has no exchange column
    exactly when its exchange variable is set to the empty text, for the
    candle, CVD and EMA repositories, and exactly when the variable is unset
    or empty for the volume-footprint repository. *)
Theorem from_env_exchange_switch (db : gateway) (env : environ) (self : Repository) :
  (CandleRepository_from_env db env = Ok self →
   (_exchange_column self = None ↔ env !! "CANDLE_EXCHANGE_COLUMN"%string = Some ""%string)) ∧
  (CandleCvdRepository_from_env db env = Ok self →
   (_exchange_column self = None ↔ env !! "CVD_EXCHANGE_COLUMN"%string = Some ""%string)) ∧
  (EmaRepository_from_env db env = Ok self →
   (_exchange_column self = None ↔ env !! "EMA_EXCHANGE_COLUMN"%string = Some ""%string)) ∧
  (VolumeFootprintRepository_from_env db env = Ok self →
   (_exchange_column self = None ↔
    env !! "FOOTPRINT_EXCHANGE_COLUMN"%string = None ∨
    env !! "FOOTPRINT_EXCHANGE_COLUMN"%string = Some ""%string)).
Proof.
  split; [|split; [|split]]; intros Hself; apply repository_init_exchange in Hself;
    rewrite Hself; try apply exchange_choice_default.
  unfold exchange_choice, getenv.
  destruct (env !! "FOOTPRINT_EXCHANGE_COLUMN"%string) as [v|].
  - destruct (String.eqb_spec v "") as [->|Hne]; split;
      [auto | auto | discriminate | intros [?|[= ?]]; congruence].
  - split; auto.
Qed.

Lemma from_env_exchange_switch_witness :
  _exchange_column (footprint_repository empty_gateway) = None ↔
  (∅ : environ) !! "FOOTPRINT_EXCHANGE_COLUMN"%string = None ∨
  (∅ : environ) !! "FOOTPRINT_EXCHANGE_COLUMN"%string = Some ""%string.
Proof.
  apply (from_env_exchange_switch empty_gateway ∅ (footprint_repository empty_gateway)).
  reflexivity.
Defined.

Ltac empty_override :=
  unfold CandleRepository_from_env, VolumeFootprintRepository_from_env,
    CandleCvdRepository_from_env, EmaRepository_from_env, getenv_default, getenv;
  rewrite ?lookup_insert_eq, ?lookup_delete_eq;
  rewrite ?lookup_insert_ne, ?lookup_delete_ne by discriminate;
  reflexivity.

(** X6: for the table and column variables, an override set to the empty
    text is the same as no override: the repository is built with the
    default name. *)
Theorem from_env_empty_override (db : gateway) (env : environ) :
  (CandleRepository_from_env db (<["CANDLE_TABLE"%string := ""%string]> env) =
     CandleRepository_from_env db (delete "CANDLE_TABLE"%string env) ∧
   CandleRepository_from_env db (<["CANDLE_SYMBOL_COLUMN"%string := ""%string]> env) =
     CandleRepository_from_env db (delete "CANDLE_SYMBOL_COLUMN"%string env) ∧
   CandleRepository_from_env db (<["CANDLE_TIME_FRAME_COLUMN"%string := ""%string]> env) =
     CandleRepository_from_env db (delete "CANDLE_TIME_FRAME_COLUMN"%string env) ∧
   CandleRepository_from_env db (<["CANDLE_TIMESTAMP_COLUMN"%string := ""%string]> env) =
     CandleRepository_from_env db (delete "CANDLE_TIMESTAMP_COLUMN"%string env)) ∧
  (VolumeFootprintRepository_from_env db (<["FOOTPRINT_TABLE"%string := ""%string]> env) =
     VolumeFootprintRepository_from_env db (delete "FOOTPRINT_TABLE"%string env) ∧
   VolumeFootprintRepository_from_env db (<["FOOTPRINT_SYMBOL_COLUMN"%string := ""%string]> env) =
     VolumeFootprintRepository_from_env db (delete "FOOTPRINT_SYMBOL_COLUMN"%string env) ∧
   VolumeFootprintRepository_from_env db (<["FOOTPRINT_TIME_FRAME_COLUMN"%string := ""%string]> env) =
     VolumeFootprintRepository_from_env db (delete "FOOTPRINT_TIME_FRAME_COLUMN"%string env) ∧
   VolumeFootprintRepository_from_env db (<["FOOTPRINT_TIMESTAMP_COLUMN"%string := ""%string]> env) =
     VolumeFootprintRepository_from_env db (delete "FOOTPRINT_TIMESTAMP_COLUMN"%string env)) ∧
  (CandleCvdRepository_from_env db (<["CVD_TABLE"%string := ""%string]> env) =
     CandleCvdRepository_from_env db (delete "CVD_TABLE"%string env) ∧
   CandleCvdRepository_from_env db (<["CVD_SYMBOL_COLUMN"%string := ""%string]> env) =
     CandleCvdRepository_from_env db (delete "CVD_SYMBOL_COLUMN"%string env) ∧
   CandleCvdRepository_from_env db (<["CVD_TIME_FRAME_COLUMN"%string := ""%string]> env) =
     CandleCvdRepository_from_env db (delete "CVD_TIME_FRAME_COLUMN"%string env) ∧
   CandleCvdRepository_from_env db (<["CVD_TIMESTAMP_COLUMN"%string := ""%string]> env) =
     CandleCvdRepository_from_env db (delete "CVD_TIMESTAMP_COLUMN"%string env)) ∧
  (EmaRepository_from_env db (<["EMA_TABLE"%string := ""%string]> env) =
     EmaRepository_from_env db (delete "EMA_TABLE"%string env) ∧
   EmaRepository_from_env db (<["EMA_SYMBOL_COLUMN"%string := ""%string]> env) =
     EmaRepository_from_env db (delete "EMA_SYMBOL_COLUMN"%string env) ∧
   EmaRepository_from_env db (<["EMA_TIME_FRAME_COLUMN"%string := ""%string]> env) =
     EmaRepository_from_env db (delete "EMA_TIME_FRAME_COLUMN"%string env) ∧
   EmaRepository_from_env db (<["EMA_TIMESTAMP_COLUMN"%string := ""%string]> env) =
     EmaRepository_from_env db (delete "EMA_TIMESTAMP_COLUMN"%string env)).
Proof. repeat split; empty_override. Qed.

(** ** config.py *)

Lemma DatabaseConfig_from_env_eq (parse_int : string → option Z) (env : environ) :
  DatabaseConfig_from_env parse_int env =
  if all_set env then
    match parse_int (getenv_default env "DB_PORT" "") with
    | Some n =>
        Done {| host := getenv_default env "DB_HOST" ""; port := n;
                user := getenv_default env "DB_USER" "";
                password := getenv_default env "DB_PASSWORD" "";
                database := getenv_default env "DB_NAME" "" |}
    | None =>
        Failed (PyRaised (PyExc ValueError
          ("invalid literal for int() with base 10: '" +:+
           getenv_default env "DB_PORT" "" +:+ "'")))
    end
  else
    Failed (RuntimeError
      ("Missing required database environment variables: " +:+
       join ", " (List.filter (variable_missing env) required_variables))).
Proof.
  unfold DatabaseConfig_from_env, all_set, required_variables, variable_missing,
    getenv, getenv_default, environ_getitem.
  cbn [List.filter forallb truthy].
  destruct (env !! "DB_HOST"%string) as [h|];
    [destruct (String.eqb h ""); cbn [negb andb]|cbn [negb andb]];
  (destruct (env !! "DB_PORT"%string) as [p|];
    [destruct (String.eqb p ""); cbn [negb andb]|cbn [negb andb]]);
  (destruct (env !! "DB_USER"%string) as [u|];
    [destruct (String.eqb u ""); cbn [negb andb]|cbn [negb andb]]);
  (destruct (env !! "DB_PASSWORD"%string) as [w|];
    [destruct (String.eqb w ""); cbn [negb andb]|cbn [negb andb]]);
  (destruct (env !! "DB_NAME"%string) as [n|];
    [destruct (String.eqb n ""); cbn [negb andb]|cbn [negb andb]]);
  try reflexivity.
  cbn [result_bind of_result]. destruct (parse_int p); reflexivity.
Qed.

(** X7: [DatabaseConfig.from_env] returns a configuration exactly when the
    five variables are set and non-empty and the port text is an integer,
    and the configuration then holds the values of the environment. It
    fails with [RuntimeError] exactly when a variable is unset or empty,
    also when the port is malformed as well, and with [ValueError] exactly
    when all are set and the port is no integer; it never fails with
    [KeyError]. *)
Theorem DatabaseConfig_from_env_outcome (parse_int : string → option Z) (env : environ) :
  match DatabaseConfig_from_env parse_int env with
  | Done config =>
      all_set env = true ∧
      env !! "DB_HOST"%string = Some (host config) ∧
      (port_text ← env !! "DB_PORT"%string; parse_int port_text) = Some (port config) ∧
      env !! "DB_USER"%string = Some (user config) ∧
      env !! "DB_PASSWORD"%string = Some (password config) ∧
      env !! "DB_NAME"%string = Some (database config)
  | Failed (RuntimeError msg) =>
      all_set env = false ∧
      msg = "Missing required database environment variables: " +:+
            join ", " (List.filter (variable_missing env) required_variables)
  | Failed (PyRaised e) =>
      all_set env = true ∧ exc_class_of e = ValueError ∧
      (port_text ← env !! "DB_PORT"%string; parse_int port_text) = None
  | Failed (HTTPException _ _) => False
  end.
Proof.
  rewrite DatabaseConfig_from_env_eq.
  destruct (all_set env) eqn:Hset; [|auto].
  unfold all_set, required_variables, variable_missing, getenv in Hset.
  cbn [forallb] in Hset.
  unfold getenv_default.
  destruct (env !! "DB_HOST"%string) as [h|]; [|discriminate Hset].
  destruct (env !! "DB_PORT"%string) as [p|];
    [|rewrite andb_false_r in Hset; discriminate Hset].
  destruct (env !! "DB_USER"%string) as [u|];
    [|rewrite !andb_false_r in Hset; discriminate Hset].
  destruct (env !! "DB_PASSWORD"%string) as [w|];
    [|rewrite !andb_false_r in Hset; discriminate Hset].
  destruct (env !! "DB_NAME"%string) as [n|];
    [|rewrite !andb_false_r in Hset; discriminate Hset].
  cbn [mbind option_bind].
  destruct (parse_int p); cbn; auto 10.
Qed.

(** ** database.py *)

(** X8: whatever the driver does, [fetch_all] closes the connection it
    opened, and closes it last; it opens no connection when connecting
    fails, closes the cursor whenever it opened one, and sends at most one
    statement. *)
Theorem fetch_all_releases_connection (d : driver) (config : DatabaseConfig)
    (sql : string) (params : list pyval) :
  match connect d config with
  | Raise e => DatabaseClient_fetch_all d config sql params = (Raise e, [])
  | Ok _ =>
      ∃ inside,
        snd (DatabaseClient_fetch_all d config sql params) =
          [Connected] ++ inside ++ [ConnectionClosed] ∧
        (inside = [] ∨
         inside = [CursorOpened; ExecuteCalled sql params; CursorClosed])
  end.
Proof.
  unfold DatabaseClient_fetch_all, with_connection, with_cursor, fetch_all_body.
  destruct (connect d config); [|reflexivity].
  destruct (open_cursor d); cbn.
  - exists [CursorOpened; ExecuteCalled sql params; CursorClosed]. auto.
  - exists []. auto.
Qed.

(** X9: [fetch_all] returns rows exactly when connecting, opening the
    cursor, executing, fetching and closing the cursor all succeed, and the
    rows are those fetched. *)
Theorem fetch_all_returns_iff (d : driver) (config : DatabaseConfig)
    (sql : string) (params : list pyval) (rows : list row) :
  DatabaseClient d config sql params = Ok rows ↔
  connect d config = Ok tt ∧ open_cursor d = Ok tt ∧
  execute d sql params = Ok tt ∧ fetchall d sql params = Ok rows ∧
  close_cursor d = Ok tt.
Proof.
  unfold DatabaseClient, DatabaseClient_fetch_all, with_connection, with_cursor,
    fetch_all_body.
  destruct (connect d config) as [[]|]; cbn; [|split; [discriminate | intros [[=] _]]].
  destruct (open_cursor d) as [[]|]; cbn;
    [|split; [discriminate | intros (_ & [=] & _)]].
  destruct (close_cursor d) as [[]|]; cbn.
  - destruct (execute d sql params) as [[]|]; cbn.
    + split; [intros ->; auto | intros (_ & _ & _ & -> & _); reflexivity].
    + split; [discriminate | intros (_ & _ & [=] & _)].
  - split; [discriminate | intros (_ & _ & _ & _ & [=])].
Qed.

(** ** server.py: the cached repositories *)

Ltac getter_cases parse_int d env st slot from_env :=
  destruct (slot st) as [cached|] eqn:Hslot;
    [split; [exact Hslot | intros env'; now rewrite Hslot]|];
  destruct (build_repository parse_int d from_env env) as [r|e];
    [split; [reflexivity | intros env'; reflexivity] | reflexivity].

(** X10: a getter that returns a repository has stored it, and every later
    call returns the stored repository whatever the environment has become;
    a getter that fails leaves the state as it was, so the next call tries
    again. *)
Theorem getters_cache (parse_int : string → option Z) (d : driver)
    (env : environ) (st : server_state) :
  match get_repository parse_int d env st with
  | (Done r, st') =>
      _repository st' = Some r ∧
      ∀ env', get_repository parse_int d env' st' = (Done r, st')
  | (Failed _, st') => st' = st
  end ∧
  match get_volume_repository parse_int d env st with
  | (Done r, st') =>
      _volume_repository st' = Some r ∧
      ∀ env', get_volume_repository parse_int d env' st' = (Done r, st')
  | (Failed _, st') => st' = st
  end ∧
  match get_cvd_repository parse_int d env st with
  | (Done r, st') =>
      _cvd_repository st' = Some r ∧
      ∀ env', get_cvd_repository parse_int d env' st' = (Done r, st')
  | (Failed _, st') => st' = st
  end ∧
  match get_ema_repository parse_int d env st with
  | (Done r, st') =>
      _ema_repository st' = Some r ∧
      ∀ env', get_ema_repository parse_int d env' st' = (Done r, st')
  | (Failed _, st') => st' = st
  end.
Proof.
  unfold get_repository, get_volume_repository, get_cvd_repository, get_ema_repository.
  split; [|split; [|split]].
  - getter_cases parse_int d env st _repository CandleRepository_from_env.
  - getter_cases parse_int d env st _volume_repository VolumeFootprintRepository_from_env.
  - getter_cases parse_int d env st _cvd_repository CandleCvdRepository_from_env.
  - getter_cases parse_int d env st _ema_repository EmaRepository_from_env.
Qed.

(** X11: each getter writes its own global only. *)
Theorem getters_keep_other_slots (parse_int : string → option Z) (d : driver)
    (env : environ) (st : server_state) :
  (let st' := snd (get_repository parse_int d env st) in
   _volume_repository st' = _volume_repository st ∧
   _cvd_repository st' = _cvd_repository st ∧ _ema_repository st' = _ema_repository st) ∧
  (let st' := snd (get_volume_repository parse_int d env st) in
   _repository st' = _repository st ∧
   _cvd_repository st' = _cvd_repository st ∧ _ema_repository st' = _ema_repository st) ∧
  (let st' := snd (get_cvd_repository parse_int d env st) in
   _repository st' = _repository st ∧
   _volume_repository st' = _volume_repository st ∧
   _ema_repository st' = _ema_repository st) ∧
  (let st' := snd (get_ema_repository parse_int d env st) in
   _repository st' = _repository st ∧
   _volume_repository st' = _volume_repository st ∧
   _cvd_repository st' = _cvd_repository st).
Proof.
  unfold get_repository, get_volume_repository, get_cvd_repository, get_ema_repository.
  repeat split;
    match goal with
    | |- context [match ?slot st with _ => _ end] => destruct (slot st)
    end; try reflexivity;
    match goal with
    | |- context [build_repository ?p ?d ?f ?e] => destruct (build_repository p d f e)
    end; reflexivity.
Qed.

(** ** server.py and api.py: the tools and the handlers as written *)

Lemma run_tool_fails `{PyRuntime}
    (getter : environ → server_state → outcome Repository * server_state)
    (fetch : Repository → io (list row)) (format : list row → result envelope)
    (env : environ) (st : server_state) :
  (∀ r, fst (fetch r []) = Raise unbound_vahalue) →
  ∃ err, fst (run_tool getter fetch format env st) = Failed err ∧
    ∀ r st', getter env st = (Done r, st') → err = PyRaised unbound_vahalue.
Proof.
  intros Hfetch. unfold run_tool.
  destruct (getter env st) as [[r|e] st'].
  - rewrite Hfetch. eexists. split; [reflexivity|]. reflexivity.
  - eexists. split; [reflexivity|]. discriminate.
Qed.

Ltac tool_fails slot :=
  match goal with
  | |- ∃ err, fst (run_tool ?getter ?fetch ?format ?env ?st) = _ ∧ _ =>
      destruct (run_tool_fails getter fetch format env st) as (err & Herr & Hname);
        [reflexivity|];
      exists err; split; [exact Herr|];
      intros [r Hr]; apply (Hname r st);
      unfold get_repository, get_volume_repository, get_cvd_repository,
        get_ema_repository;
      rewrite Hr; reflexivity
  end.

(** X12: no tool of server.py returns an envelope. Each call ends in an
    exception: the one of the configuration or of the constructor when the
    repository cannot be built, and otherwise, in particular whenever the
    repository is already cached, the [NameError] of the normalizer. *)
Theorem tools_never_return (R : PyRuntime) (parse_int : string → option Z) (d : driver)
    (env : environ) (st : server_state) (symbol tf : string) (limit : Z)
    (ex s e : option string) :
  (∃ err, fst (get_candles parse_int d env st symbol tf limit ex s e) = Failed err ∧
     (is_Some (_repository st) → err = PyRaised unbound_vahalue)) ∧
  (∃ err, fst (get_volume_footprint parse_int d env st symbol tf limit ex s e) = Failed err ∧
     (is_Some (_volume_repository st) → err = PyRaised unbound_vahalue)) ∧
  (∃ err, fst (get_cvd parse_int d env st symbol tf limit ex s e) = Failed err ∧
     (is_Some (_cvd_repository st) → err = PyRaised unbound_vahalue)) ∧
  (∃ err, fst (get_ema parse_int d env st symbol tf limit ex s e) = Failed err ∧
     (is_Some (_ema_repository st) → err = PyRaised unbound_vahalue)).
Proof.
  unfold get_candles, get_volume_footprint, get_cvd, get_ema.
  split; [|split; [|split]]; tool_fails st.
Qed.

(** X13: no HTTP handler of api.py answers with rows or with the 400 of its
    [except ValueError]: on every repository and for all arguments the
    handler ends in the [NameError] of the normalizer, which is no
    [ValueError] and leaves the handler as it is. *)
Theorem handlers_raise_name_error (R : PyRuntime) (repository : Repository)
    (symbol tf : string) (limit : Z) (ex s e : option string) :
  api_get_candles repository symbol tf limit ex s e = Failed (PyRaised unbound_vahalue) ∧
  api_get_cvd repository symbol tf limit ex s e = Failed (PyRaised unbound_vahalue) ∧
  api_get_ema repository symbol tf limit ex s e = Failed (PyRaised unbound_vahalue) ∧
  api_get_volume_footprint repository symbol tf limit ex s e =
    Failed (PyRaised unbound_vahalue).
Proof. repeat split; reflexivity. Qed.

(** ** server.py: the envelope builders beyond well-formed rows *)

(** X14: [_format_timestamp] shows a text as [display_timestamp] does and
    never fails on it; a value that is no text gives null when it is falsy
    (null, zero, an empty byte string) and [TypeError] when it is truthy,
    for example a non-zero integer timestamp. *)
Theorem format_timestamp_outcome (R : PyRuntime) (v : pyval) :
  _format_timestamp v =
  match v with
  | PStr s => Ok (display_timestamp s)
  | _ =>
      if truthy v then Raise (PyExc TypeError "fromisoformat: argument must be str")
      else Ok PNone
  end.
Proof.
  destruct v; try apply format_timestamp_text;
    unfold _format_timestamp;
    match goal with |- context [truthy ?x] => destruct (truthy x) end;
    reflexivity.
Qed.

Ltac key_error :=
  unfold format_candle_response, format_volume_footprint_response,
    format_cvd_response, format_ema_response, format_response,
    first_timestamp, last_timestamp, dict_getitem.

(** X15: every envelope builder raises [KeyError] for [timestamp] when the
    first or the last row of a row list has no [timestamp] key, whatever
    the other rows hold. *)
Theorem envelope_missing_timestamp (R : PyRuntime) (rows : list row) (r : row) :
  head rows = Some r ∨ last rows = Some r →
  r !! "timestamp"%string = None →
  format_candle_response rows = Raise (PyExc KeyError "timestamp") ∧
  format_volume_footprint_response rows = Raise (PyExc KeyError "timestamp") ∧
  format_cvd_response rows = Raise (PyExc KeyError "timestamp") ∧
  format_ema_response rows = Raise (PyExc KeyError "timestamp").
Proof.
  intros Hrow Hkey. key_error.
  destruct rows as [|r0 rows']; [destruct Hrow; discriminate|].
  destruct Hrow as [[= ->]|Hlast].
  - rewrite Hkey. auto.
  - rewrite Hlast, Hkey. destruct (r0 !! "timestamp"%string); auto.
Qed.

Lemma envelope_missing_timestamp_witness :
  @format_candle_response SampleRuntime.runtime
    [candle_at "2024-01-05T09:15:00"; {[ "ts"%string := PStr "2024-01-05T09:30:00" ]}] =
    Raise (PyExc KeyError "timestamp").
Proof.
  apply (envelope_missing_timestamp SampleRuntime.runtime _
           {[ "ts"%string := PStr "2024-01-05T09:30:00" ]}).
  - right. reflexivity.
  - reflexivity.
Defined.

(** X16: the bounds of an envelope, and whether building it fails, depend
    on the first and the last row only: the rows in between can be
    replaced by any others. *)
Theorem bounds_from_first_and_last (R : PyRuntime) (r0 rn : row) (mid mid' : list row) :
  bounds (format_candle_response (r0 :: mid ++ [rn])) =
    bounds (format_candle_response (r0 :: mid' ++ [rn])) ∧
  bounds (format_volume_footprint_response (r0 :: mid ++ [rn])) =
    bounds (format_volume_footprint_response (r0 :: mid' ++ [rn])) ∧
  bounds (format_cvd_response (r0 :: mid ++ [rn])) =
    bounds (format_cvd_response (r0 :: mid' ++ [rn])) ∧
  bounds (format_ema_response (r0 :: mid ++ [rn])) =
    bounds (format_ema_response (r0 :: mid' ++ [rn])).
Proof.
  key_error.
  rewrite !app_comm_cons, !last_snoc.
  cbn [app].
  destruct (r0 !! "timestamp"%string) as [v0|]; [|auto].
  destruct (rn !! "timestamp"%string) as [vn|]; [|auto].
  cbn [result_bind].
  destruct (_format_timestamp v0); [|auto].
  destruct (_format_timestamp vn); auto.
Qed.

(** ** server.py: the EMA rows *)

Lemma dict_get_ema_source (r : row) (k : string) :
  k ∈ ema_source_keys → dict_get (ema_row r) k = dict_get r k.
Proof.
  intros Hk. unfold dict_get.
  now rewrite ema_row_other by now apply ema_source_not_duplicate.
Qed.

Lemma elem_of_ema_source_keys :
  "20_ema"%string ∈ ema_source_keys ∧ "50_ema"%string ∈ ema_source_keys ∧
  "100_ema"%string ∈ ema_source_keys ∧ "200_ema"%string ∈ ema_source_keys.
Proof. unfold ema_source_keys. rewrite !elem_of_cons. auto 10. Qed.

(** X17: rewriting an EMA row twice is the same as rewriting it once. *)
Theorem ema_row_idempotent (r : row) : ema_row (ema_row r) = ema_row r.
Proof.
  destruct elem_of_ema_source_keys as (H20 & H50 & H100 & H200).
  apply map_eq. intros k.
  destruct (decide (k ∈ ema_duplicate_keys)) as [Hin|Hout].
  - unfold ema_duplicate_keys in Hin. rewrite !elem_of_cons, elem_of_nil in Hin.
    destruct Hin as [->|[->|[->|[->|[]]]]].
    + change "_20_ema"%string with ("_" +:+ "20_ema").
      now rewrite !ema_row_duplicate, dict_get_ema_source.
    + change "_50_ema"%string with ("_" +:+ "50_ema").
      now rewrite !ema_row_duplicate, dict_get_ema_source.
    + change "_100_ema"%string with ("_" +:+ "100_ema").
      now rewrite !ema_row_duplicate, dict_get_ema_source.
    + change "_200_ema"%string with ("_" +:+ "200_ema").
      now rewrite !ema_row_duplicate, dict_get_ema_source.
  - now rewrite !ema_row_other.
Qed.

(** X18: when a row lacks one of the numeric-prefixed keys, the rewritten
    row still lacks it and binds the underscore-prefixed key to null. *)
Theorem ema_row_missing_original (r : row) (k : string) :
  k ∈ ema_source_keys → r !! k = None →
  ema_row r !! k = None ∧ ema_row r !! ("_" +:+ k) = Some PNone.
Proof.
  intros Hk Hnone. split.
  - rewrite ema_row_other by now apply ema_source_not_duplicate. exact Hnone.
  - rewrite ema_row_duplicate by exact Hk. unfold dict_get. now rewrite Hnone.
Qed.

Lemma ema_row_missing_original_witness :
  ema_row (candle_at "2024-01-05T09:15:00") !! "20_ema"%string = None ∧
  ema_row (candle_at "2024-01-05T09:15:00") !! "_20_ema"%string = Some PNone.
Proof.
  apply (ema_row_missing_original (candle_at "2024-01-05T09:15:00") "20_ema").
  - unfold ema_source_keys. apply list_elem_of_here.
  - reflexivity.
Defined.

(** ** repository.py: the row serializer *)

Lemma serialize_value_idempotent `{PyRuntime} (v : pyval) :
  serialize_value (serialize_value v) = serialize_value v.
Proof. destruct v; reflexivity. Qed.

(** X19: the serializer keeps the keys of a row, leaves no date-time, date
    or decimal value in it, and changes nothing when it is applied to its
    own result. *)
Theorem serialize_row_normal_form (R : PyRuntime) (r : row) :
  dom (_serialize_row r) = dom r ∧
  (∀ k v, _serialize_row r !! k = Some v → native_value v = false) ∧
  _serialize_row (_serialize_row r) = _serialize_row r.
Proof.
  unfold _serialize_row. split; [apply dom_fmap_L|]. split.
  - intros k v. rewrite lookup_fmap.
    destruct (r !! k) as [w|]; [|discriminate].
    intros [= <-]. destruct w; reflexivity.
  - rewrite <- map_fmap_compose. apply map_fmap_ext.
    intros k v _. apply serialize_value_idempotent.
Qed.

(** ** repository.py: the statements of the fetch bodies *)

Lemma count_percent_append (a b : string) :
  count_percent (a +:+ b) = (count_percent a + count_percent b)%nat.
Proof.
  induction a as [|c a IH]; [reflexivity|].
  change (count_percent (String c (a +:+ b)) =
          (count_percent (String c a) + count_percent b)%nat).
  cbn [count_percent]. rewrite IH. lia.
Qed.

Lemma count_percent_allowed_from (seen : bool) (s : string) :
  allowed_identifier_from seen s = true → count_percent s = 0%nat.
Proof.
  revert seen. induction s as [|c rest IH]; intros seen; cbn; [reflexivity|].
  destruct (is_identifier_char c) eqn:Hc.
  - intros Hrest. rewrite (IH _ Hrest).
    destruct (Ascii.eqb_spec c "%") as [->|]; [discriminate Hc | reflexivity].
  - intros [[_ Hnl]%andb_true_iff Hempty]%andb_true_iff.
    apply Ascii.eqb_eq in Hnl. apply String.eqb_eq in Hempty. now subst.
Qed.

Lemma count_percent_allowed (s : string) :
  ALLOWED_IDENTIFIER_match s = true → count_percent s = 0%nat.
Proof. apply count_percent_allowed_from. Qed.

Lemma sanitized_names (self : Repository) :
  sanitized self = true →
  count_percent (_table self) = 0%nat ∧ count_percent (_symbol_column self) = 0%nat ∧
  count_percent (_time_frame_column self) = 0%nat ∧
  count_percent (_timestamp_column self) = 0%nat ∧
  ∀ col, exchange_column_set self = Some col → count_percent col = 0%nat.
Proof.
  unfold sanitized, exchange_column_set, accepted_option.
  intros [[[[Ht Hs]%andb_true_iff Hf]%andb_true_iff Hm]%andb_true_iff He]%andb_true_iff.
  repeat split; auto using count_percent_allowed.
  intros col. destruct (_exchange_column self) as [c|]; [|discriminate].
  destruct (truthy (PStr c)); [|discriminate].
  intros [= <-]. now apply count_percent_allowed.
Qed.

(** In a statement of a sanitized repository there are as many
    placeholders as parameters, for any column list without a [%]. *)
Lemma placeholders_of_expected_sql (self : Repository) (columns symbol tf : string)
    (limit : Z) (ex st en : option string) :
  sanitized self = true → count_percent columns = 0%nat →
  filter_refused self ex = false →
  count_percent (expected_sql self columns (provided ex) (provided st) (provided en)) =
  length (expected_params symbol tf limit ex st en).
Proof.
  intros (Ht & Hs & Hf & Hm & He)%sanitized_names Hcols Href.
  unfold expected_sql, expected_params, filter_refused in *.
  assert (Hex : provided ex = true → count_percent (default ""%string (exchange_column_set self)) = 0%nat).
  { intros Hp. rewrite Hp in Href. destruct (exchange_column_set self) as [col|];
      [now apply He | discriminate]. }
  destruct ex, st, en; cbn [provided optional_param] in *;
    rewrite ?count_percent_append, ?Ht, ?Hs, ?Hf, ?Hm, ?Hcols, ?(Hex eq_refl);
    reflexivity.
Qed.

Lemma count_percent_columns (self : Repository) :
  sanitized self = true →
  count_percent (candle_select_list self) = 0%nat ∧
  count_percent (join ", " (footprint_select_columns self)) = 0%nat ∧
  count_percent (join ", " (cvd_select_columns self)) = 0%nat ∧
  count_percent (join ", " (ema_select_columns self)) = 0%nat.
Proof.
  intros (Ht & Hs & Hf & Hm & He)%sanitized_names.
  unfold candle_select_list, footprint_select_columns, cvd_select_columns,
    ema_select_columns.
  destruct (exchange_column_set self) as [col|];
    [specialize (He col eq_refl) | clear He]; cbn [app join];
    rewrite ?count_percent_append, ?Hs, ?Hf, ?Hm, ?He; repeat split; reflexivity.
Qed.

Ltac statement_of q Hq :=
  unfold candles_statement, volume_footprints_statement, cvd_statement,
    ema_statement in Hq;
  rewrite build_statement_eq in Hq;
  match type of Hq with
  | (if ?b then _ else _) = _ => destruct b eqn:Href; [discriminate Hq|]
  end;
  injection Hq as <-.

(** X20: in every statement a fetch body builds on a repository whose names
    passed the pattern, the number of [%] characters of the text, which are
    the [%s] placeholders, equals the number of bound parameters. *)
Theorem placeholders_match_parameters (self : Repository) (symbol tf : string)
    (limit : Z) (ex st en : option string) (q : query) :
  sanitized self = true →
  candles_statement self symbol tf limit ex st en = Ok q ∨
  volume_footprints_statement self symbol tf limit ex st en = Ok q ∨
  cvd_statement self symbol tf limit ex st en = Ok q ∨
  ema_statement self symbol tf limit ex st en = Ok q →
  count_percent (fst q) = length (snd q).
Proof.
  intros Hsane Hq.
  destruct (count_percent_columns self Hsane) as (Hc & Hf & Hv & He).
  destruct Hq as [Hq|[Hq|[Hq|Hq]]]; statement_of q Hq;
    now apply placeholders_of_expected_sql.
Qed.

Lemma placeholders_match_parameters_witness :
  count_percent
    ("SELECT time_frame, symbol, timestamp, open, high, low, close, volume " +:+
     "FROM tradingview_candle_data WHERE symbol = %s AND time_frame = %s " +:+
     "AND timestamp >= %s ORDER BY timestamp DESC LIMIT %s") = 4%nat.
Proof.
  apply (placeholders_match_parameters (candle_repository empty_gateway)
           "NIFTY" "5m" 20 None (Some "2024-01-05 09:15:00"%string) None
           (_, [PStr "NIFTY"; PStr "5m"; PStr "2024-01-05 09:15:00"; PInt 20])).
  - reflexivity.
  - left. reflexivity.
Defined.

(** X21: the text of a statement depends on the repository and on which
    optional arguments are given, and on no value: two calls of a fetch
    body that give the same optional arguments build the same text, or are
    both refused. *)
Theorem statement_text_ignores_values (self : Repository)
    (symbol tf symbol' tf' : string) (limit limit' : Z)
    (ex st en ex' st' en' : option string) :
  provided ex = provided ex' → provided st = provided st' →
  provided en = provided en' →
  statement_text (candles_statement self symbol tf limit ex st en) =
    statement_text (candles_statement self symbol' tf' limit' ex' st' en') ∧
  statement_text (volume_footprints_statement self symbol tf limit ex st en) =
    statement_text (volume_footprints_statement self symbol' tf' limit' ex' st' en') ∧
  statement_text (cvd_statement self symbol tf limit ex st en) =
    statement_text (cvd_statement self symbol' tf' limit' ex' st' en') ∧
  statement_text (ema_statement self symbol tf limit ex st en) =
    statement_text (ema_statement self symbol' tf' limit' ex' st' en').
Proof.
  intros Hex Hst Hen.
  unfold candles_statement, volume_footprints_statement, cvd_statement, ema_statement.
  rewrite !build_statement_eq. unfold filter_refused. rewrite Hex, Hst, Hen.
  destruct (provided ex' && _); auto.
Qed.

Lemma statement_text_ignores_values_witness :
  statement_text (ema_statement (candle_repository empty_gateway)
                    "NIFTY" "5m" 20 (Some "NSE"%string) None None) =
  statement_text (ema_statement (candle_repository empty_gateway)
                    "x' OR 1=1 --" "1D" 7 (Some "BSE"%string) None None).
Proof.
  apply (statement_text_ignores_values (candle_repository empty_gateway)
           "NIFTY" "5m" "x' OR 1=1 --" "1D" 20 7
           (Some "NSE"%string) None None (Some "BSE"%string) None None);
    reflexivity.
Defined.

(** X22: the parameters of a statement are the symbol, the time frame the
    body was given, then the exchange, the start and the end timestamp
    when they are given, in this order, and the limit last: between three
    and six parameters. *)
Theorem statement_parameters_in_order (self : Repository) (symbol tf : string)
    (limit : Z) (ex st en : option string) (q : query) :
  candles_statement self symbol tf limit ex st en = Ok q ∨
  volume_footprints_statement self symbol tf limit ex st en = Ok q ∨
  cvd_statement self symbol tf limit ex st en = Ok q ∨
  ema_statement self symbol tf limit ex st en = Ok q →
  snd q = [PStr symbol; PStr tf] ++ optional_param ex ++ optional_param st ++
          optional_param en ++ [PInt limit] ∧
  (3 ≤ length (snd q) ≤ 6)%nat.
Proof.
  intros Hq. destruct Hq as [Hq|[Hq|[Hq|Hq]]]; statement_of q Hq;
    cbn [snd]; unfold expected_params; (split; [reflexivity|]);
    destruct ex, st, en; cbn; lia.
Qed.

Lemma statement_parameters_in_order_witness :
  ∃ q, cvd_statement (candle_repository empty_gateway) "NIFTY" "5m" 20
         (Some "NSE"%string) (Some "2024-01-05 09:15:00"%string) None = Ok q ∧
       snd q = [PStr "NIFTY"; PStr "5m"; PStr "NSE"; PStr "2024-01-05 09:15:00"; PInt 20] ∧
       (3 ≤ length (snd q) ≤ 6)%nat.
Proof.
  eexists. split; [reflexivity|].
  apply (statement_parameters_in_order (candle_repository empty_gateway)
           "NIFTY" "5m" 20 (Some "NSE"%string) (Some "2024-01-05 09:15:00"%string) None).
  right. right. left. reflexivity.
Defined.

(** ** repository.py: the fetch bodies and the gateway *)

Section RunFacts.
Context `{PyRuntime}.
Implicit Types (self : Repository) (rows : list row) (sent : list query).

Ltac run_unfold :=
  unfold run_candles, run_volume_footprints, run_cvd, run_ema,
    candles_statement, volume_footprints_statement, cvd_statement, ema_statement,
    io_bind, io_lift, fetch_all, io_ret;
  rewrite !build_statement_eq.

(** X23: a fetch body that refuses the exchange filter raises the
    invalid-filter [ValueError] and sends nothing to the gateway. *)
Theorem refused_filter_sends_nothing self symbol tf limit ex st en sent :
  filter_refused self ex = true →
  run_candles self symbol tf limit ex st en sent = (Raise no_exchange_column, sent) ∧
  run_volume_footprints self symbol tf limit ex st en sent = (Raise no_exchange_column, sent) ∧
  run_cvd self symbol tf limit ex st en sent = (Raise no_exchange_column, sent) ∧
  run_ema self symbol tf limit ex st en sent = (Raise no_exchange_column, sent).
Proof. intros Href. run_unfold. rewrite Href. auto. Qed.

(** X24: a fetch body that does not refuse the filter sends exactly one
    statement, whatever the gateway answers, and an exception of the
    gateway is the exception of the body: nothing is retried or caught. *)
Theorem body_sends_one_statement self symbol tf limit ex st en sent :
  filter_refused self ex = false →
  (∃ q, snd (run_candles self symbol tf limit ex st en sent) = sent ++ [q] ∧
     ∀ e, _db self (fst q) (snd q) = Raise e →
       fst (run_candles self symbol tf limit ex st en sent) = Raise e) ∧
  (∃ q, snd (run_volume_footprints self symbol tf limit ex st en sent) = sent ++ [q] ∧
     ∀ e, _db self (fst q) (snd q) = Raise e →
       fst (run_volume_footprints self symbol tf limit ex st en sent) = Raise e) ∧
  (∃ q, snd (run_cvd self symbol tf limit ex st en sent) = sent ++ [q] ∧
     ∀ e, _db self (fst q) (snd q) = Raise e →
       fst (run_cvd self symbol tf limit ex st en sent) = Raise e) ∧
  (∃ q, snd (run_ema self symbol tf limit ex st en sent) = sent ++ [q] ∧
     ∀ e, _db self (fst q) (snd q) = Raise e →
       fst (run_ema self symbol tf limit ex st en sent) = Raise e).
Proof.
  intros Href. run_unfold. rewrite Href. cbn [fst snd].
  repeat split; eexists (_, _); cbn [fst snd];
    (split; [destruct (_db self _ _); reflexivity | intros e ->; reflexivity]).
Qed.

(** X25: when the gateway answers with rows that are sorted, newest first,
    by a relation on the serialized rows, the bodies of [fetch_candles],
    [fetch_cvd] and [fetch_ema] return the same rows sorted the other way
    round, oldest first. *)
Theorem body_returns_ascending (R : relation row) self symbol tf limit ex st en sent rows :
  filter_refused self ex = false →
  (∀ sql params, _db self sql params = Ok rows) →
  Sorted R (_serialize_row <$> rows) →
  ∃ out,
    Sorted (flip R) out ∧ reverse out = _serialize_row <$> rows ∧
    fst (run_candles self symbol tf limit ex st en sent) = Ok out ∧
    fst (run_cvd self symbol tf limit ex st en sent) = Ok out ∧
    fst (run_ema self symbol tf limit ex st en sent) = Ok out.
Proof.
  intros Href Hdb Hsorted. exists (_serialize_row <$> reverse rows).
  split; [rewrite fmap_reverse; now apply Sorted_reverse|].
  split; [now rewrite fmap_reverse, reverse_involutive|].
  run_unfold. rewrite Href. cbn [fst snd]. rewrite !Hdb. auto.
Qed.

(** X26: the loop of [fetch_volume_footprints] never fails: it returns one
    row per stored row, with the keys of the stored row, the [levels] value
    normalized and every other value serialized. *)
Theorem footprint_loop_total rows :
  ∃ out,
    for_each footprint_row rows = Ok out ∧ length out = length rows ∧
    ∀ (i : nat) (r : row), rows !! i = Some r →
      ∃ o, out !! i = Some o ∧ dom o = dom r ∧
        o !! "levels"%string = levels_outcome <$> (_serialize_row r !! "levels"%string) ∧
        ∀ k, k ≠ "levels"%string → o !! k = _serialize_row r !! k.
Proof.
  induction rows as [|r rows (out & Hout & Hlen & Hrows)].
  - exists []. repeat split; auto. intros i r. rewrite lookup_nil. discriminate.
  - cbn [for_each]. rewrite footprint_row_eq, Hout. cbn [result_bind].
    eexists. split; [reflexivity|]. split; [cbn; now rewrite Hlen|].
    intros [|i] r'; cbn; [|apply Hrows].
    intros [= <-]. eexists. split; [reflexivity|].
    assert (Hdom : dom (_serialize_row r) = dom r) by apply dom_fmap_L.
    destruct (_serialize_row r !! "levels"%string) as [v|] eqn:Hv.
    + split; [|split].
      * rewrite dom_insert_L, <- Hdom. apply elem_of_dom_2 in Hv.
        apply set_eq. intros k. rewrite elem_of_union, elem_of_singleton.
        split; [intros [->|Hk]; assumption | auto].
      * now rewrite lookup_insert_eq.
      * intros k Hk. now rewrite lookup_insert_ne.
    + repeat split; auto.
Qed.

End RunFacts.

Lemma refused_filter_sends_nothing_witness :
  @run_volume_footprints SampleRuntime.runtime (footprint_repository footprint_gateway)
    "NIFTY" "1D" 10 (Some "NSE"%string) None None [] = (Raise no_exchange_column, []).
Proof.
  apply (@refused_filter_sends_nothing SampleRuntime.runtime
           (footprint_repository footprint_gateway) "NIFTY" "1D" 10
           (Some "NSE"%string) None None []).
  reflexivity.
Defined.

Lemma body_sends_one_statement_witness :
  ∃ q, snd (@run_candles SampleRuntime.runtime (candle_repository candle_gateway)
              "NIFTY" "5m" 20 None None None []) = [] ++ [q].
Proof.
  destruct (@body_sends_one_statement SampleRuntime.runtime
              (candle_repository candle_gateway) "NIFTY" "5m" 20 None None None []
              eq_refl) as ((q & Hq & _) & _).
  exists q. exact Hq.
Defined.

Lemma body_returns_ascending_witness :
  ∃ out, Sorted (flip later) out ∧
    fst (@run_candles SampleRuntime.runtime (candle_repository candle_gateway)
           "BANKNIFTY1!" "30m" 3 None None None []) = Ok out.
Proof.
  destruct (@body_returns_ascending SampleRuntime.runtime later
              (candle_repository candle_gateway) "BANKNIFTY1!" "30m" 3 None None None []
              [stored_candle 45 103; stored_candle 30 102; stored_candle 15 101])
    as (out & Hsorted & _ & Hrun & _).
  - reflexivity.
  - reflexivity.
  - repeat constructor.
  - exists out. split; assumption.
Defined.

(** ** server.py: the first call of a getter *)

Lemma repository_init_outcome dt db t s f m exch :
  match repository_init dt db t s f m exch with
  | Ok r => _db r = db ∧ sanitized r = true
  | Raise e => exc_class_of e = ValueError
  end.
Proof.
  destruct (repository_init_eq dt db t s f m exch) as [Hyes Hno].
  destruct (names_accepted dt t s f m exch) eqn:Hnames.
  - rewrite (Hyes eq_refl). split; [reflexivity | exact Hnames].
  - destruct (Hno eq_refl) as [name ->]. reflexivity.
Qed.

Lemma build_repository_outcome (parse_int : string → option Z) (d : driver)
    (from_env : gateway → environ → result Repository) (env : environ) :
  (∀ db, match from_env db env with
         | Ok r => _db r = db ∧ sanitized r = true
         | Raise e => exc_class_of e = ValueError
         end) →
  first_call_outcome parse_int d env (build_repository parse_int d from_env env).
Proof.
  intros Hfrom. unfold build_repository.
  pose proof (DatabaseConfig_from_env_eq parse_int env) as Hc. revert Hc.
  destruct (all_set env) eqn:Hset; [|intros ->; exact Hset].
  destruct (parse_int (getenv_default env "DB_PORT" "")) as [n|]; intros Hc; rewrite Hc.
  - match goal with
    | |- context [DatabaseClient d ?c] =>
        specialize (Hfrom (DatabaseClient d c));
        destruct (from_env (DatabaseClient d c) env) as [r|e]; cbn;
        [exists c; destruct Hfrom; auto | auto]
    end.
  - cbn. auto.
Qed.

(** X27: the first call of a getter fails with [RuntimeError] exactly when a
    database variable is unset or empty, whatever the table and column
    variables hold; with all five set it fails with [ValueError], for the
    port or for a name the sanitizer refuses, or returns a repository whose
    names all pass the pattern and whose gateway is a client for the
    configuration of the environment. *)
Theorem getters_first_call (parse_int : string → option Z) (d : driver)
    (env : environ) (st : server_state) :
  _repository st = None → _volume_repository st = None →
  _cvd_repository st = None → _ema_repository st = None →
  first_call_outcome parse_int d env (fst (get_repository parse_int d env st)) ∧
  first_call_outcome parse_int d env (fst (get_volume_repository parse_int d env st)) ∧
  first_call_outcome parse_int d env (fst (get_cvd_repository parse_int d env st)) ∧
  first_call_outcome parse_int d env (fst (get_ema_repository parse_int d env st)).
Proof.
  intros H1 H2 H3 H4.
  unfold get_repository, get_volume_repository, get_cvd_repository, get_ema_repository.
  rewrite H1, H2, H3, H4.
  split; [|split; [|split]];
    match goal with
    | |- context [build_repository ?p ?d ?f ?e] =>
        pose proof (build_repository_outcome p d f e) as Hbuild;
        destruct (build_repository p d f e); apply Hbuild;
        intros db; apply repository_init_outcome
    end.
Qed.

Lemma getters_first_call_witness :
  first_call_outcome sample_int sample_driver sample_environ
    (fst (get_repository sample_int sample_driver sample_environ initial_state)) ∧
  ∃ r, fst (get_repository sample_int sample_driver sample_environ initial_state) = Done r.
Proof.
  split.
  - exact (proj1 (getters_first_call sample_int sample_driver sample_environ
                    initial_state eq_refl eq_refl eq_refl eq_refl)).
  - eexists. reflexivity.
Defined.
